(* ===================================================================== *)
(* vtracer-gui: the conversion worker, the parameter panel and the main  *)
(* window of vtracer-gui.py, embedded as Rocq functions.                 *)
(*                                                                       *)
(* Conventions of the embedding                                          *)
(*  - A Python str is the sequence of bytes of its UTF-8 encoding, held  *)
(*    in a Rocq string.  '/', '.', the ASCII letters and the line feed   *)
(*    are one byte each and occur in UTF-8 only as themselves, so        *)
(*    splitting, rfind and the test against the keys of a dict agree     *)
(*    with Python on every text.                                         *)
(*  - A Python int is a Z, a Python float is a binary64 primitive float. *)
(*  - A dict is a gmap; the keyword dictionary handed to the worker is a *)
(*    record with one field per key.                                     *)
(*  - Qt widgets are records of the properties the program reads or      *)
(*    writes; their setters follow the Qt documentation.                 *)
(* ===================================================================== *)

From Stdlib Require Import ZArith Floats Ascii.
From stdpp Require Import gmap strings list fin_maps.

Local Open Scope string_scope.
Local Open Scope Z_scope.

(* --------------------------------------------------------------------- *)
(* str methods                                                           *)
(* --------------------------------------------------------------------- *)

Module Str.

(** The lower-case form of one byte: 'A'..'Z' (65..90) move by 32, every
    other byte is kept.  (The only code point outside ASCII whose
    lower-case form is made of ASCII letters alone is the Kelvin sign,
    which gives 'k'; no key of the tables below holds a 'k'.) *)
Definition lower_byte (c : ascii) : ascii :=
  let n := nat_of_ascii c in
  if ((65 <=? n) && (n <=? 90))%nat then ascii_of_nat (n + 32) else c.

(** str.lower() *)
Fixpoint lower (s : string) : string :=
  match s with
  | EmptyString => EmptyString
  | String c s' => String (lower_byte c) (lower s')
  end.

(** len(s) *)
Definition len (s : string) : Z := Z.of_nat (String.length s).

(** s.rfind(c): the highest index at which [c] occurs, -1 when absent. *)
Fixpoint rfind (c : ascii) (s : string) : Z :=
  match s with
  | EmptyString => -1
  | String a s' =>
      let r := rfind c s' in
      if 0 <=? r then r + 1
      else if Ascii.eqb a c then 0 else -1
  end.

(** s[i:] for 0 <= i *)
Fixpoint drop (n : nat) (s : string) : string :=
  match n, s with
  | O, _ => s
  | S n', String _ s' => drop n' s'
  | S _, EmptyString => EmptyString
  end.

(** s[:i] for 0 <= i *)
Fixpoint take (n : nat) (s : string) : string :=
  match n, s with
  | S n', String c s' => String c (take n' s')
  | _, _ => EmptyString
  end.

(** s.split(sep) for a one-character separator: never an empty list. *)
Fixpoint split (sep : ascii) (s : string) : list string :=
  match s with
  | EmptyString => [EmptyString]
  | String c s' =>
      if Ascii.eqb c sep then EmptyString :: split sep s'
      else match split sep s' with
           | [] => [String c EmptyString]
           | x :: xs => String c x :: xs
           end
  end.

(** s.replace(old, new) for a one-character [old]. *)
Fixpoint replace (old : ascii) (new : string) (s : string) : string :=
  match s with
  | EmptyString => EmptyString
  | String c s' =>
      if Ascii.eqb c old then new ++ replace old new s'
      else String c (replace old new s')
  end.

(** Truth value of an Optional[str]: None and the empty text are false. *)
Definition truthy (o : option string) : bool :=
  match o with
  | None => false
  | Some EmptyString => false
  | Some _ => true
  end.

End Str.

(* --------------------------------------------------------------------- *)
(* pathlib.Path, POSIX flavour: name, suffix, stem                       *)
(* (the properties as CPython 3.12 defines them: suffix by rfind on the  *)
(* name)                                                                 *)
(* --------------------------------------------------------------------- *)

Module Path.

(** The components kept by the parser: the pieces between '/' that are
    neither empty nor '.'. *)
Definition tail (p : string) : list string :=
  filter (fun x => x <> "" /\ x <> ".") (Str.split "/" p).

(** Path(p).name: the last component, '' when there is none. *)
Definition name (p : string) : string := List.last (tail p) "".

(** Path(p).suffix:
      i = name.rfind('.')
      name[i:] if 0 < i < len(name) - 1 else ''            *)
Definition suffix (p : string) : string :=
  let nm := name p in
  let i := Str.rfind "." nm in
  if (0 <? i) && (i <? Str.len nm - 1) then Str.drop (Z.to_nat i) nm
  else "".

(** Path(p).stem: name[:i] under the same test, else name. *)
Definition stem (p : string) : string :=
  let nm := name p in
  let i := Str.rfind "." nm in
  if (0 <? i) && (i <? Str.len nm - 1) then Str.take (Z.to_nat i) nm
  else nm.

End Path.

(* --------------------------------------------------------------------- *)
(* ConversionWorker.run, lines 62-71: the format tag                     *)
(* --------------------------------------------------------------------- *)

(** img_format_map *)
Definition img_format_map : gmap string string :=
<[".jpg" := "jpg"]> (<[".jpeg" := "jpg"]> (<[".png" := "png"]>
(<[".bmp" := "bmp"]> (<[".gif" := "gif"]> (<[".tiff" := "tiff"]> ∅))))).

(** file_extension = Path(self.image_path).suffix.lower() *)
Definition file_extension (image_path : string) : string :=
Str.lower (Path.suffix image_path).

(** img_format = img_format_map.get(file_extension, "jpg") *)
Definition img_format (image_path : string) : string :=
default "jpg" (img_format_map !! file_extension image_path).

(** The table of the specification, read on the suffix as it stands in
  the path (no change of case). *)
Definition format_of_raw_suffix (image_path : string) : string :=
default "jpg" (img_format_map !! Path.suffix image_path).

(* --------------------------------------------------------------------- *)
(* Exceptions, signals and the worker's control flow                     *)
(* --------------------------------------------------------------------- *)

(** An exception object of a class derived from Exception, the kind that
    open and the tracing library raise on failure and that the handler of
    run catches: all that the program reads of it is str(e). *)
Record exn := Exn { exn_class : string; exn_str : string }.

(** The outcome of a call that returns or raises. *)
Inductive result (A : Type) : Type :=
| Return (a : A)
| Raise (e : exn).
Arguments Return {A} a.
Arguments Raise {A} e.

(** The three signals of ConversionWorker. *)
Inductive signal : Type :=
| finished (svg : string)
| error (msg : string)
| progress (n : Z).

(** The terminal signals are finished and error. *)
Definition is_terminal (s : signal) : bool :=
  match s with
  | finished _ | error _ => true
  | progress _ => false
  end.

(** A computation that emits signals on its way and returns or raises. *)
Definition Emit (A : Type) : Type := (list signal * result A)%type.

Definition ret {A} (a : A) : Emit A := ([], Return a).

Definition bind {A B} (m : Emit A) (k : A -> Emit B) : Emit B :=
  match m with
  | (l, Return a) => let (l', r) := k a in ((l ++ l')%list, r)
  | (l, Raise e) => (l, Raise e)
  end.

(** signal.emit(...) *)
Definition emit (s : signal) : Emit unit := ([s], Return tt).

(** A call into the world outside the thread. *)
Definition call {A} (r : result A) : Emit A := ([], r).

(** try: body    except Exception as e: handler(e) *)
Definition try_except (body : Emit unit) (handler : exn -> Emit unit)
  : Emit unit :=
  match body with
  | (l, Return a) => (l, Return a)
  | (l, Raise e) => let (l', r) := handler e in ((l ++ l')%list, r)
  end.

Declare Scope emit_scope.
Delimit Scope emit_scope with emit.
Notation "x <- m ;; k" := (bind m (fun x => k))
  (at level 100, m at next level, right associativity) : emit_scope.
Notation "m ;;; k" := (bind m (fun _ => k))
  (at level 100, right associativity) : emit_scope.

(* --------------------------------------------------------------------- *)
(* The world outside the program: files and the platform                 *)
(* --------------------------------------------------------------------- *)

(** [files] holds the bytes of every file that can be opened for reading;
    [oserror p] is the OSError that open raises on a path it cannot open;
    [can_write p] tells whether open(p, "w") succeeds; [linesep] is
    os.linesep. *)
Record World := {
  files : gmap string string;
  oserror : string -> exn;
  can_write : string -> bool;
  linesep : string
}.

Definition LF : ascii := "010"%char.

(** with open(path, "rb") as f: f.read() *)
Definition open_rb_read (w : World) (path : string) : result string :=
  match files w !! path with
  | Some image_bytes => Return image_bytes
  | None => Raise (oserror w path)
  end.

(** with open(path, "w", encoding="utf-8") as f: f.write(text)
    Text mode with the default newline argument writes os.linesep for
    every line feed. *)
Definition open_w_write (w : World) (path text : string) : result World :=
  if can_write w path then
    Return {| files := <[path := Str.replace LF (linesep w) text]> (files w);
              oserror := oserror w;
              can_write := can_write w;
              linesep := linesep w |}
  else Raise (oserror w path).

(** Reading a file back, byte for byte. *)
Definition read_back (w : World) (path : string) : option string :=
  files w !! path.

(* --------------------------------------------------------------------- *)
(* The keyword dictionary built by get_parameters                        *)
(* --------------------------------------------------------------------- *)

Module Params.

Record t := {
  colormode : string;
  hierarchical : string;
  mode : string;
  filter_speckle : Z;
  color_precision : Z;
  layer_difference : Z;
  corner_threshold : Z;
  length_threshold : float;
  max_iterations : Z;
  splice_threshold : Z
}.

End Params.

(** int to float: exact below 2^53 in absolute value, which covers the C
    int of a slider. *)
Definition float_of_int (z : Z) : float :=
  match z with
  | Z0 => 0%float
  | Zpos _ => PrimFloat.of_uint63 (Uint63.of_Z z)
  | Zneg _ => PrimFloat.opp (PrimFloat.of_uint63 (Uint63.of_Z (- z)))
  end.

(* --------------------------------------------------------------------- *)
(* Qt widgets                                                            *)
(* --------------------------------------------------------------------- *)

Module QSlider.

Record t := { minimum : Z; maximum : Z; value : Z }.

(** QSlider(Qt.Horizontal): range 0..99, value 0. *)
Definition new : t := {| minimum := 0; maximum := 99; value := 0 |}.

(** QAbstractSliderPrivate::bound: qMax(minimum, qMin(maximum, val)) *)
Definition bound (s : t) (val : Z) : Z :=
  Z.max (minimum s) (Z.min (maximum s) val).

(** setValue: the value is forced into the range. *)
Definition setValue (val : Z) (s : t) : t :=
  {| minimum := minimum s; maximum := maximum s; value := bound s val |}.

(** setRange(min, max): maximum becomes qMax(min, max), then the value is
    bounded again. *)
Definition setRange (lo hi : Z) (s : t) : t :=
  setValue (value s)
    {| minimum := lo; maximum := Z.max lo hi; value := value s |}.

End QSlider.

Module QComboBox.

Record t := { items : list string; currentIndex : Z }.

(** QComboBox(): no item, no current item. *)
Definition new : t := {| items := []; currentIndex := -1 |}.

Definition count (c : t) : Z := Z.of_nat (length (items c)).

(** addItems: appended; a box that was empty takes its first item as the
    current one. *)
Definition addItems (texts : list string) (c : t) : t :=
  {| items := (items c ++ texts)%list;
     currentIndex :=
       if (currentIndex c <? 0) && negb (Nat.eqb (length (items c ++ texts)%list) 0)
       then 0 else currentIndex c |}.

(** findText: index of the first item equal to the text, -1 when absent. *)
Fixpoint find_from (i : Z) (text : string) (l : list string) : Z :=
  match l with
  | [] => -1
  | x :: l' => if String.eqb x text then i else find_from (i + 1) text l'
  end.

Definition findText (text : string) (c : t) : Z := find_from 0 text (items c).

(** setCurrentText on a box that is not editable: the matching item
    becomes current; nothing happens when there is none. *)
Definition setCurrentText (text : string) (c : t) : t :=
  let i := findText text c in
  if 0 <=? i then {| items := items c; currentIndex := i |} else c.

(** currentText: the text of the current item, empty when none. *)
Definition currentText (c : t) : string :=
  if (0 <=? currentIndex c) && (currentIndex c <? count c)
  then nth (Z.to_nat (currentIndex c)) (items c) ""
  else "".

(** The user picks row [i] of the list: only an existing row can be
    picked. *)
Definition activate (i : Z) (c : t) : t :=
  if (0 <=? i) && (i <? count c)
  then {| items := items c; currentIndex := i |} else c.

End QComboBox.

(* --------------------------------------------------------------------- *)
(* class ParameterControlWidget                                          *)
(* --------------------------------------------------------------------- *)

Module ParameterControlWidget.

(** The controls read by get_parameters.  (The value labels beside the
    sliders only display the value and are left out.) *)
Record t := {
  color_mode : QComboBox.t;
  hierarchical_mode : QComboBox.t;
  filter_speckle : QSlider.t;
  color_precision : QSlider.t;
  layer_difference : QSlider.t;
  curve_mode : QComboBox.t;
  corner_threshold : QSlider.t;
  length_threshold : QSlider.t;
  splice_threshold : QSlider.t
}.

(** init_ui: each control is created, filled and set as on lines 175-285. *)
Definition init_ui : t := {|
  color_mode :=
    QComboBox.setCurrentText "Color"
      (QComboBox.addItems ["Color"; "B/W"] QComboBox.new);
  hierarchical_mode :=
    QComboBox.setCurrentText "Stacked"
      (QComboBox.addItems ["Stacked"; "CutOut"] QComboBox.new);
  filter_speckle :=
    QSlider.setValue 4 (QSlider.setRange 0 128 QSlider.new);
  color_precision :=
    QSlider.setValue 6 (QSlider.setRange 1 8 QSlider.new);
  layer_difference :=
    QSlider.setValue 16 (QSlider.setRange 0 128 QSlider.new);
  curve_mode :=
    QComboBox.setCurrentText "Spline"
      (QComboBox.addItems ["Spline"; "Polygon"; "Pixel"] QComboBox.new);
  corner_threshold :=
    QSlider.setValue 60 (QSlider.setRange 0 180 QSlider.new);
  length_threshold :=
    QSlider.setValue 40 (QSlider.setRange 35 100 QSlider.new);
  splice_threshold :=
    QSlider.setValue 45 (QSlider.setRange 0 180 QSlider.new)
|}.

(** What the user can do to the panel: pick a row of a selector, or move
    a slider (by mouse or keyboard, which ends in setValue). *)
Inductive action : Type :=
| pick_color_mode (row : Z)
| pick_hierarchical_mode (row : Z)
| pick_curve_mode (row : Z)
| move_filter_speckle (val : Z)
| move_color_precision (val : Z)
| move_layer_difference (val : Z)
| move_corner_threshold (val : Z)
| move_length_threshold (val : Z)
| move_splice_threshold (val : Z).

Definition act (p : t) (a : action) : t :=
  match a with
  | pick_color_mode row =>
      {| color_mode := QComboBox.activate row (color_mode p);
         hierarchical_mode := hierarchical_mode p;
         filter_speckle := filter_speckle p;
         color_precision := color_precision p;
         layer_difference := layer_difference p;
         curve_mode := curve_mode p;
         corner_threshold := corner_threshold p;
         length_threshold := length_threshold p;
         splice_threshold := splice_threshold p |}
  | pick_hierarchical_mode row =>
      {| color_mode := color_mode p;
         hierarchical_mode := QComboBox.activate row (hierarchical_mode p);
         filter_speckle := filter_speckle p;
         color_precision := color_precision p;
         layer_difference := layer_difference p;
         curve_mode := curve_mode p;
         corner_threshold := corner_threshold p;
         length_threshold := length_threshold p;
         splice_threshold := splice_threshold p |}
  | pick_curve_mode row =>
      {| color_mode := color_mode p;
         hierarchical_mode := hierarchical_mode p;
         filter_speckle := filter_speckle p;
         color_precision := color_precision p;
         layer_difference := layer_difference p;
         curve_mode := QComboBox.activate row (curve_mode p);
         corner_threshold := corner_threshold p;
         length_threshold := length_threshold p;
         splice_threshold := splice_threshold p |}
  | move_filter_speckle val =>
      {| color_mode := color_mode p;
         hierarchical_mode := hierarchical_mode p;
         filter_speckle := QSlider.setValue val (filter_speckle p);
         color_precision := color_precision p;
         layer_difference := layer_difference p;
         curve_mode := curve_mode p;
         corner_threshold := corner_threshold p;
         length_threshold := length_threshold p;
         splice_threshold := splice_threshold p |}
  | move_color_precision val =>
      {| color_mode := color_mode p;
         hierarchical_mode := hierarchical_mode p;
         filter_speckle := filter_speckle p;
         color_precision := QSlider.setValue val (color_precision p);
         layer_difference := layer_difference p;
         curve_mode := curve_mode p;
         corner_threshold := corner_threshold p;
         length_threshold := length_threshold p;
         splice_threshold := splice_threshold p |}
  | move_layer_difference val =>
      {| color_mode := color_mode p;
         hierarchical_mode := hierarchical_mode p;
         filter_speckle := filter_speckle p;
         color_precision := color_precision p;
         layer_difference := QSlider.setValue val (layer_difference p);
         curve_mode := curve_mode p;
         corner_threshold := corner_threshold p;
         length_threshold := length_threshold p;
         splice_threshold := splice_threshold p |}
  | move_corner_threshold val =>
      {| color_mode := color_mode p;
         hierarchical_mode := hierarchical_mode p;
         filter_speckle := filter_speckle p;
         color_precision := color_precision p;
         layer_difference := layer_difference p;
         curve_mode := curve_mode p;
         corner_threshold := QSlider.setValue val (corner_threshold p);
         length_threshold := length_threshold p;
         splice_threshold := splice_threshold p |}
  | move_length_threshold val =>
      {| color_mode := color_mode p;
         hierarchical_mode := hierarchical_mode p;
         filter_speckle := filter_speckle p;
         color_precision := color_precision p;
         layer_difference := layer_difference p;
         curve_mode := curve_mode p;
         corner_threshold := corner_threshold p;
         length_threshold := QSlider.setValue val (length_threshold p);
         splice_threshold := splice_threshold p |}
  | move_splice_threshold val =>
      {| color_mode := color_mode p;
         hierarchical_mode := hierarchical_mode p;
         filter_speckle := filter_speckle p;
         color_precision := color_precision p;
         layer_difference := layer_difference p;
         curve_mode := curve_mode p;
         corner_threshold := corner_threshold p;
         length_threshold := length_threshold p;
         splice_threshold := QSlider.setValue val (splice_threshold p) |}
  end.

(** The panel after a session of user actions, oldest first. *)
Definition after (session : list action) : t := fold_left act session init_ui.

(** The dict literal indexed on lines 304-306. *)
Definition curve_mode_names : gmap string string :=
  <["Spline" := "spline"]> (<["Polygon" := "polygon"]>
  (<["Pixel" := "none"]> ∅)).

(** d[key]: KeyError when the key is absent. *)
Definition getitem (d : gmap string string) (key : string) : result string :=
  match d !! key with
  | Some v => Return v
  | None => Raise (Exn "KeyError" ("'" ++ key ++ "'"))
  end.

(** get_parameters *)
Definition get_parameters (self : t) : result Params.t :=
  match getitem curve_mode_names (QComboBox.currentText (curve_mode self)) with
  | Raise e => Raise e
  | Return mode_name =>
      Return {|
        Params.colormode :=
          if String.eqb (QComboBox.currentText (color_mode self)) "Color"
          then "color" else "binary";
        Params.hierarchical :=
          if String.eqb (QComboBox.currentText (hierarchical_mode self))
               "Stacked"
          then "stacked" else "cutout";
        Params.mode := mode_name;
        Params.filter_speckle := QSlider.value (filter_speckle self);
        Params.color_precision := QSlider.value (color_precision self);
        Params.layer_difference := QSlider.value (layer_difference self);
        Params.corner_threshold := QSlider.value (corner_threshold self);
        Params.length_threshold :=
          PrimFloat.div
            (float_of_int (QSlider.value (length_threshold self))) 10%float;
        Params.max_iterations := 10;
        Params.splice_threshold := QSlider.value (splice_threshold self)
      |}
  end.

End ParameterControlWidget.

(* --------------------------------------------------------------------- *)
(* class ConversionWorker                                                *)
(* --------------------------------------------------------------------- *)

Module ConversionWorker.

Record t := { image_path : string; params : Params.t }.

Section Run.

(** vtracer.convert_raw_image_to_svg(image_bytes, img_format=..., **params):
    the tracing library, which returns the SVG text or raises. *)
Variable convert_raw_image_to_svg :
  string -> string -> Params.t -> result string.

Variable w : World.

Local Open Scope emit_scope.

(** The body of the try block, lines 53-81. *)
Definition run_body (self : t) : Emit unit :=
  emit (progress 10) ;;;
  image_bytes <- call (open_rb_read w (image_path self)) ;;
  emit (progress 30) ;;;
  let img_format := img_format (image_path self) in
  emit (progress 50) ;;;
  svg_content <-
    call (convert_raw_image_to_svg image_bytes img_format (params self)) ;;
  emit (progress 100) ;;;
  emit (finished svg_content).

(** The message prefix of line 84, in UTF-8. *)
Definition error_prefix : string := "変換エラー: ".

(** run: the signals emitted, in order. *)
Definition run (self : t) : list signal :=
  fst (try_except (run_body self)
         (fun e => emit (error (error_prefix ++ exn_str e)))).

End Run.

End ConversionWorker.

(* --------------------------------------------------------------------- *)
(* class VTracerGUI                                                      *)
(* --------------------------------------------------------------------- *)

Module VTracerGUI.

Inductive box_kind : Type := information | warning | critical.

(** A modal QMessageBox shown to the user: kind, title, text. *)
Record message := { kind : box_kind; title : string; text : string }.

(** The window: its three attributes, the panel, and the properties of the
    child widgets that the methods set.  [message_boxes] lists the boxes
    shown so far, oldest first. *)
Record t := {
  current_image_path : option string;
  current_svg_content : option string;
  conversion_worker : option ConversionWorker.t;
  param_controls : ParameterControlWidget.t;
  image_widget_toolTip : string;
  svg_widget : option string;
  convert_button_enabled : bool;
  save_button_enabled : bool;
  progress_bar_visible : bool;
  progress_bar_value : Z;
  message_boxes : list message
}.

(** __init__ and init_ui: nothing loaded, both buttons disabled, the
    progress bar hidden (a new QProgressBar has range 0..100, value -1). *)
Definition init : t := {|
  current_image_path := None;
  current_svg_content := None;
  conversion_worker := None;
  param_controls := ParameterControlWidget.init_ui;
  image_widget_toolTip := "";
  svg_widget := None;
  convert_button_enabled := false;
  save_button_enabled := false;
  progress_bar_visible := false;
  progress_bar_value := -1;
  message_boxes := []
|}.

(** QProgressBar.setValue: a value outside 0..100 is ignored. *)
Definition progress_bar_setValue (n : Z) (self : t) : t :=
  {| current_image_path := current_image_path self;
     current_svg_content := current_svg_content self;
     conversion_worker := conversion_worker self;
     param_controls := param_controls self;
     image_widget_toolTip := image_widget_toolTip self;
     svg_widget := svg_widget self;
     convert_button_enabled := convert_button_enabled self;
     save_button_enabled := save_button_enabled self;
     progress_bar_visible := progress_bar_visible self;
     progress_bar_value :=
       if (0 <=? n) && (n <=? 100) then n else progress_bar_value self;
     message_boxes := message_boxes self |}.

(** QMessageBox.information / warning / critical *)
Definition show_box (k : box_kind) (ttl txt : string) (self : t) : t :=
  {| current_image_path := current_image_path self;
     current_svg_content := current_svg_content self;
     conversion_worker := conversion_worker self;
     param_controls := param_controls self;
     image_widget_toolTip := image_widget_toolTip self;
     svg_widget := svg_widget self;
     convert_button_enabled := convert_button_enabled self;
     save_button_enabled := save_button_enabled self;
     progress_bar_visible := progress_bar_visible self;
     progress_bar_value := progress_bar_value self;
     message_boxes :=
       (message_boxes self ++ [{| kind := k; title := ttl; text := txt |}])%list
  |}.

(** load_image (the pixmap shown by the drop area is left out). *)
Definition load_image (file_path : string) (self : t) : t :=
  {| current_image_path := Some file_path;
     current_svg_content := current_svg_content self;
     conversion_worker := conversion_worker self;
     param_controls := param_controls self;
     image_widget_toolTip := "Selected image: " ++ Path.name file_path;
     svg_widget := svg_widget self;
     convert_button_enabled := true;
     save_button_enabled := save_button_enabled self;
     progress_bar_visible := progress_bar_visible self;
     progress_bar_value := progress_bar_value self;
     message_boxes := message_boxes self |}.

(** Lines 465-467: the state of the window while a conversion runs. *)
Definition enter_conversion (self : t) : t :=
  progress_bar_setValue 0
    {| current_image_path := current_image_path self;
       current_svg_content := current_svg_content self;
       conversion_worker := conversion_worker self;
       param_controls := param_controls self;
       image_widget_toolTip := image_widget_toolTip self;
       svg_widget := svg_widget self;
       convert_button_enabled := false;
       save_button_enabled := save_button_enabled self;
       progress_bar_visible := true;
       progress_bar_value := progress_bar_value self;
       message_boxes := message_boxes self |}.

(** self.conversion_worker = ConversionWorker(...); ...; start() *)
Definition set_worker (wk : ConversionWorker.t) (self : t) : t :=
  {| current_image_path := current_image_path self;
     current_svg_content := current_svg_content self;
     conversion_worker := Some wk;
     param_controls := param_controls self;
     image_widget_toolTip := image_widget_toolTip self;
     svg_widget := svg_widget self;
     convert_button_enabled := convert_button_enabled self;
     save_button_enabled := save_button_enabled self;
     progress_bar_visible := progress_bar_visible self;
     progress_bar_value := progress_bar_value self;
     message_boxes := message_boxes self |}.

(** convert_image: the window afterwards, and the exception that leaves
    the method, if any.  A worker is started exactly when the
    conversion_worker attribute is assigned. *)
Definition convert_image (self : t) : t * option exn :=
  if negb (Str.truthy (current_image_path self)) then (self, None)
  else
    let self1 := enter_conversion self in
    match ParameterControlWidget.get_parameters (param_controls self1) with
    | Raise e => (self1, Some e)
    | Return params =>
        (set_worker
           {| ConversionWorker.image_path :=
                default "" (current_image_path self1);
              ConversionWorker.params := params |} self1, None)
    end.

(** on_conversion_finished.  (str.encode cannot fail on a text held as its
    UTF-8 bytes, and QSvgWidget.load does not raise, so the warning box of
    the except branch is never shown.) *)
Definition on_conversion_finished (svg_content : string) (self : t) : t :=
  show_box information "Complete" "Image conversion completed successfully."
    {| current_image_path := current_image_path self;
       current_svg_content := Some svg_content;
       conversion_worker := conversion_worker self;
       param_controls := param_controls self;
       image_widget_toolTip := image_widget_toolTip self;
       svg_widget := Some svg_content;
       convert_button_enabled := true;
       save_button_enabled := true;
       progress_bar_visible := false;
       progress_bar_value := progress_bar_value self;
       message_boxes := message_boxes self |}.

(** on_conversion_error *)
Definition on_conversion_error (error_message : string) (self : t) : t :=
  let self1 := show_box critical "Error" error_message self in
  {| current_image_path := current_image_path self1;
     current_svg_content := current_svg_content self1;
     conversion_worker := conversion_worker self1;
     param_controls := param_controls self1;
     image_widget_toolTip := image_widget_toolTip self1;
     svg_widget := svg_widget self1;
     convert_button_enabled := true;
     save_button_enabled := save_button_enabled self1;
     progress_bar_visible := false;
     progress_bar_value := progress_bar_value self1;
     message_boxes := message_boxes self1 |}.

(** The three connections made in convert_image. *)
Definition deliver (self : t) (s : signal) : t :=
  match s with
  | finished svg => on_conversion_finished svg self
  | error msg => on_conversion_error msg self
  | progress n => progress_bar_setValue n self
  end.

(** save_svg.  [getSaveFileName] is the file dialog: from the proposed
    name to the path chosen by the user, empty when the dialog is
    cancelled. *)
Definition save_svg (getSaveFileName : string -> string)
    (w : World) (self : t) : World * t :=
  if negb (Str.truthy (current_svg_content self)) then (w, self)
  else
    let svg := default "" (current_svg_content self) in
    let default_name :=
      if Str.truthy (current_image_path self)
      then Path.stem (default "" (current_image_path self)) ++ ".svg"
      else "" in
    let file_path := getSaveFileName default_name in
    match file_path with
    | EmptyString => (w, self)
    | _ =>
        match open_w_write w file_path svg with
        | Return w' =>
            (w', show_box information "Success"
                   ("SVG file saved successfully:" ++ String LF file_path)
                   self)
        | Raise e =>
            (w, show_box critical "Error"
                  ("Failed to save file:" ++ String LF (exn_str e)) self)
        end
    end.

(** One conversion from end to end: the worker held by the window runs,
    and every signal it emits reaches its slot, in order. *)
Definition run_worker
    (convert_raw_image_to_svg : string -> string -> Params.t -> result string)
    (w : World) (self : t) : t :=
  match conversion_worker self with
  | None => self
  | Some wk =>
      fold_left deliver
        (ConversionWorker.run convert_raw_image_to_svg w wk) self
  end.

End VTracerGUI.

(* --------------------------------------------------------------------- *)
(* Predicates used by the statements                                     *)
(* --------------------------------------------------------------------- *)

(** A slider whose range is lo..hi and whose value lies in it. *)
Definition slider_ok (lo hi : Z) (s : QSlider.t) : Prop :=
  QSlider.minimum s = lo /\ QSlider.maximum s = hi /\
  lo <= QSlider.value s <= hi.

(** A selector holding exactly [texts], one of which is current. *)
Definition combo_ok (texts : list string) (c : QComboBox.t) : Prop :=
  QComboBox.items c = texts /\
  0 <= QComboBox.currentIndex c < Z.of_nat (length texts).

(** The ranges and item lists set up by init_ui. *)
Definition panel_ok (p : ParameterControlWidget.t) : Prop :=
  combo_ok ["Color"; "B/W"] (ParameterControlWidget.color_mode p) /\
  combo_ok ["Stacked"; "CutOut"] (ParameterControlWidget.hierarchical_mode p) /\
  combo_ok ["Spline"; "Polygon"; "Pixel"]
    (ParameterControlWidget.curve_mode p) /\
  slider_ok 0 128 (ParameterControlWidget.filter_speckle p) /\
  slider_ok 1 8 (ParameterControlWidget.color_precision p) /\
  slider_ok 0 128 (ParameterControlWidget.layer_difference p) /\
  slider_ok 0 180 (ParameterControlWidget.corner_threshold p) /\
  slider_ok 35 100 (ParameterControlWidget.length_threshold p) /\
  slider_ok 0 180 (ParameterControlWidget.splice_threshold p).

(** 3.5 <= x <= 10.0 on floats. *)
Definition length_in_bounds (x : float) : bool :=
  PrimFloat.leb 3.5%float x && PrimFloat.leb x 10%float.

(** The values 3.5, 4.0, ..., 10.0 of a step of 0.5 (each is a binary64
    number). *)
Definition half_steps : list float :=
  [3.5; 4; 4.5; 5; 5.5; 6; 6.5; 7; 7.5; 8; 8.5; 9; 9.5; 10]%float.

Definition on_half_step (x : float) : bool :=
  existsb (PrimFloat.eqb x) half_steps.

(** A world for the examples: no file, every path writable, line
    separator as given. *)
Definition empty_world (sep : string) : World := {|
  files := ∅;
  oserror := fun p => Exn "FileNotFoundError"
                        ("[Errno 2] No such file or directory: '" ++ p ++ "'");
  can_write := fun _ => true;
  linesep := sep
|}.

Definition CR : ascii := "013"%char.

(** A tracing library for the examples: it rejects empty input and
    answers a fixed document otherwise. *)
Definition toy_library (image_bytes img_format : string) (_ : Params.t)
  : result string :=
  match image_bytes with
  | EmptyString => Raise (Exn "Exception" "Unrecognized image format.")
  | _ => Return ("<svg>" ++ String LF "</svg>")
  end.

(** The dictionary of a panel left at its defaults. *)
Definition default_params : Params.t := {|
  Params.colormode := "color";
  Params.hierarchical := "stacked";
  Params.mode := "spline";
  Params.filter_speckle := 4;
  Params.color_precision := 6;
  Params.layer_difference := 16;
  Params.corner_threshold := 60;
  Params.length_threshold := 4%float;
  Params.max_iterations := 10;
  Params.splice_threshold := 45
|}.

(** A window that holds the result of a first conversion, then loads a
    path that does not exist and converts again. *)
Definition after_success_then_retry : VTracerGUI.t :=
  fst (VTracerGUI.convert_image
         (VTracerGUI.load_image "/no/such/file.png"
            (VTracerGUI.on_conversion_finished "<svg/>"
               (VTracerGUI.load_image "/tmp/cat.png" VTracerGUI.init)))).

(** Split a conjunction that is written as one, leaving the predicates
    folded. *)
Ltac split_conj := repeat match goal with |- _ /\ _ => split end.

(* --------------------------------------------------------------------- *)
(* class ImageDropWidget                                                 *)
(* --------------------------------------------------------------------- *)

Module ImageDropWidget.

(** extensions, the set literal of is_image_file. *)
Definition extensions : gset string :=
  {[ ".png"; ".jpg"; ".jpeg"; ".bmp"; ".gif"; ".tiff" ]}.

(** is_image_file *)
Definition is_image_file (file_path : string) : bool :=
  bool_decide (Str.lower (Path.suffix file_path) ∈ extensions).

(** dragEnterEvent: the drag is accepted when the mime data has URLs. *)
Definition dragEnterEvent (urls : list string) : bool :=
  match urls with
  | [] => false
  | _ :: _ => true
  end.

(** dropEvent: the path sent with imageDropped, if the signal is emitted.
    Each URL is given by its toLocalFile() text. *)
Definition dropEvent (urls : list string) : option string :=
  match urls with
  | [] => None
  | file_path :: _ =>
      if is_image_file file_path then Some file_path else None
  end.

(** select_file: [file_path] is the answer of the open dialog, empty when
    it is cancelled. *)
Definition select_file (file_path : string) : option string :=
  if Str.truthy (Some file_path) && is_image_file file_path
  then Some file_path else None.

Inductive mouse_button : Type := LeftButton | OtherButton.

(** mousePressEvent *)
Definition mousePressEvent (button : mouse_button) (file_path : string)
  : option string :=
  match button with
  | LeftButton => select_file file_path
  | OtherButton => None
  end.

End ImageDropWidget.

(* --------------------------------------------------------------------- *)
(* The window in use: user events and worker signals                     *)
(* --------------------------------------------------------------------- *)

Module Session.

(** What can happen to the window.  A signal reaches its slot only once a
    worker has been created and connected; which signal arrives, and
    when, is left open, so a statement about every list of events holds
    for every interleaving of worker signals with user events.  A click
    on a disabled button is not delivered by Qt. *)
Inductive event : Type :=
| drop (urls : list string)
| press (button : ImageDropWidget.mouse_button) (dialog_answer : string)
| panel (a : ParameterControlWidget.action)
| click_convert
| arrive (s : signal)
| click_save (getSaveFileName : string -> string).

(** imageDropped is connected to load_image. *)
Definition image_dropped (o : option string) (g : VTracerGUI.t)
  : VTracerGUI.t :=
  match o with
  | Some file_path => VTracerGUI.load_image file_path g
  | None => g
  end.

(** The panel is changed by the user only; on_parameters_changed does
    nothing. *)
Definition with_panel (p : ParameterControlWidget.t) (g : VTracerGUI.t)
  : VTracerGUI.t :=
  {| VTracerGUI.current_image_path := VTracerGUI.current_image_path g;
     VTracerGUI.current_svg_content := VTracerGUI.current_svg_content g;
     VTracerGUI.conversion_worker := VTracerGUI.conversion_worker g;
     VTracerGUI.param_controls := p;
     VTracerGUI.image_widget_toolTip := VTracerGUI.image_widget_toolTip g;
     VTracerGUI.svg_widget := VTracerGUI.svg_widget g;
     VTracerGUI.convert_button_enabled := VTracerGUI.convert_button_enabled g;
     VTracerGUI.save_button_enabled := VTracerGUI.save_button_enabled g;
     VTracerGUI.progress_bar_visible := VTracerGUI.progress_bar_visible g;
     VTracerGUI.progress_bar_value := VTracerGUI.progress_bar_value g;
     VTracerGUI.message_boxes := VTracerGUI.message_boxes g |}.

Definition step (st : World * VTracerGUI.t) (e : event)
  : World * VTracerGUI.t :=
  match e with
  | drop urls =>
      (fst st, image_dropped (ImageDropWidget.dropEvent urls) (snd st))
  | press button answer =>
      (fst st,
       image_dropped (ImageDropWidget.mousePressEvent button answer) (snd st))
  | panel a =>
      (fst st,
       with_panel
         (ParameterControlWidget.act (VTracerGUI.param_controls (snd st)) a)
         (snd st))
  | click_convert =>
      if VTracerGUI.convert_button_enabled (snd st)
      then (fst st, fst (VTracerGUI.convert_image (snd st)))
      else st
  | arrive s =>
      match VTracerGUI.conversion_worker (snd st) with
      | Some _ => (fst st, VTracerGUI.deliver (snd st) s)
      | None => st
      end
  | click_save getSaveFileName =>
      if VTracerGUI.save_button_enabled (snd st)
      then VTracerGUI.save_svg getSaveFileName (fst st) (snd st)
      else st
  end.

(** The files and the window after the events, oldest first, starting
    from the freshly built window. *)
Definition play (w : World) (events : list event) : World * VTracerGUI.t :=
  fold_left step events (w, VTracerGUI.init).

End Session.

(** The bounds and names of a dictionary built from the panel. *)
Definition params_ok (s : Params.t) : Prop :=
  In (Params.colormode s) ["color"; "binary"] /\
  In (Params.hierarchical s) ["stacked"; "cutout"] /\
  In (Params.mode s) ["spline"; "polygon"; "none"] /\
  0 <= Params.filter_speckle s <= 128 /\
  1 <= Params.color_precision s <= 8 /\
  0 <= Params.layer_difference s <= 128 /\
  0 <= Params.corner_threshold s <= 180 /\
  length_in_bounds (Params.length_threshold s) = true /\
  Params.max_iterations s = 10 /\
  0 <= Params.splice_threshold s <= 180.

(** What holds of the window after any list of events. *)
Definition window_ok (g : VTracerGUI.t) : Prop :=
  panel_ok (VTracerGUI.param_controls g) /\
  (forall p, VTracerGUI.current_image_path g = Some p ->
             ImageDropWidget.is_image_file p = true) /\
  (VTracerGUI.convert_button_enabled g = true ->
   is_Some (VTracerGUI.current_image_path g)) /\
  (VTracerGUI.save_button_enabled g = true <->
   is_Some (VTracerGUI.current_svg_content g)) /\
  (forall wk, VTracerGUI.conversion_worker g = Some wk ->
     ImageDropWidget.is_image_file (ConversionWorker.image_path wk) = true /\
     params_ok (ConversionWorker.params wk)) /\
  (is_Some (VTracerGUI.conversion_worker g) ->
   is_Some (VTracerGUI.current_image_path g)) /\
  (VTracerGUI.progress_bar_visible g = true ->
   is_Some (VTracerGUI.conversion_worker g)).

(** The message box shown by the slot of a terminal signal. *)
Definition box_of (s : signal) : list VTracerGUI.message :=
  match s with
  | finished _ =>
      [{| VTracerGUI.kind := VTracerGUI.information;
          VTracerGUI.title := "Complete";
          VTracerGUI.text := "Image conversion completed successfully." |}]
  | error msg =>
      [{| VTracerGUI.kind := VTracerGUI.critical;
          VTracerGUI.title := "Error";
          VTracerGUI.text := msg |}]
  | progress _ => []
  end.

(** The progress values among the signals, in order. *)
Definition progress_values (sigs : list signal) : list Z :=
  flat_map (fun s => match s with progress n => [n] | _ => [] end) sigs.

(** clamp(lo, hi, v) as the sliders do it. *)
Definition clamp (lo hi v : Z) : Z := Z.max lo (Z.min hi v).

(** A world for the examples with one readable image. *)
Definition cat_world : World := {|
  files := {["/tmp/cat.png" := "raw image bytes"]};
  oserror := oserror (empty_world (String LF ""));
  can_write := fun p => negb (String.eqb p "/readonly/out.svg");
  linesep := String LF ""
|}.

(** A second library for the examples: it knows the png tag only. *)
Definition png_only_library (image_bytes img_format : string) (p : Params.t)
  : result string :=
  if String.eqb img_format "png" then toy_library image_bytes img_format p
  else Raise (Exn "Exception" "Unsupported format.").

(** A short session for the examples: two files are dropped, a slider is
    pushed past its end, the image is converted and the result saved. *)
Definition example_events : list Session.event :=
  [Session.drop ["/tmp/cat.png"; "/tmp/notes.txt"];
   Session.panel (ParameterControlWidget.move_corner_threshold 500);
   Session.click_convert;
   Session.arrive (progress 10);
   Session.arrive (finished "<svg/>");
   Session.click_save (fun name => "/tmp/" ++ name)].

(** The same session stopped right after the click on the convert
    button, and stopped before that click. *)
Definition example_events_converting : list Session.event :=
  take 3 example_events.

Definition example_events_loaded : list Session.event :=
  take 2 example_events.

(* ===================================================================== *)
(* Properties                                                            *)
(* ===================================================================== *)

(* --------------------------------------------------------------------- *)
(* pathlib and the format tag                                            *)
(* --------------------------------------------------------------------- *)

Example name_dir : Path.name "/home/u/pic.old/shot.PNG" = "shot.PNG".
Proof. reflexivity. Qed.
Example name_trailing : Path.name "a.png/./" = "a.png".
Proof. reflexivity. Qed.
Example suffix_hidden : Path.suffix "/tmp/.png" = "".
Proof. reflexivity. Qed.
Example suffix_dot_end : Path.suffix "photo." = "".
Proof. reflexivity. Qed.
Example suffix_two : Path.suffix "a.tar.GIF" = ".GIF".
Proof. reflexivity. Qed.
Example stem_two : Path.stem "/x/a.tar.gif" = "a.tar".
Proof. reflexivity. Qed.
Example format_jpeg : img_format "IMG_0001.JPEG" = "jpg".
Proof. vm_compute. reflexivity. Qed.
Example format_tif : img_format "scan.tif" = "jpg".
Proof. vm_compute. reflexivity. Qed.

(* --------------------------------------------------------------------- *)
(* Format tag: what the table gives on every key                         *)
(* --------------------------------------------------------------------- *)

(** dict.get on img_format_map, key by key. *)
Lemma img_format_map_get (e : string) :
  default "jpg" (img_format_map !! e) =
    if decide (e = ".jpg") then "jpg"
    else if decide (e = ".jpeg") then "jpg"
    else if decide (e = ".png") then "png"
    else if decide (e = ".bmp") then "bmp"
    else if decide (e = ".gif") then "gif"
    else if decide (e = ".tiff") then "tiff"
    else "jpg".
Proof.
  unfold img_format_map.
  repeat (case_decide; [subst e; vm_compute; reflexivity|]).
  rewrite !lookup_insert_ne by congruence.
  rewrite lookup_empty. reflexivity.
Qed.

(** C2, as stated, fails: the suffix of "a.PNG" is ".PNG", which is no key
    of the table, and the tag is "png", not the default "jpg". *)
Lemma C2_raw_suffix_counterexample :
  Path.suffix "a.PNG" = ".PNG" /\
  img_format_map !! ".PNG" = None /\
  format_of_raw_suffix "a.PNG" = "jpg" /\
  img_format "a.PNG" = "png".
Proof. vm_compute. repeat split; reflexivity. Qed.

(** C2, amended: for every path the tag is the table's entry for the
    lower-cased suffix, and "jpg" when the lower-cased suffix is none of the
    six keys. *)
Theorem C2_img_format_table (image_path : string) :
  let e := Str.lower (Path.suffix image_path) in
  (e = ".jpg" /\ img_format image_path = "jpg") \/
  (e = ".jpeg" /\ img_format image_path = "jpg") \/
  (e = ".png" /\ img_format image_path = "png") \/
  (e = ".bmp" /\ img_format image_path = "bmp") \/
  (e = ".gif" /\ img_format image_path = "gif") \/
  (e = ".tiff" /\ img_format image_path = "tiff") \/
  ((e <> ".jpg" /\ e <> ".jpeg" /\ e <> ".png" /\
    e <> ".bmp" /\ e <> ".gif" /\ e <> ".tiff") /\
   img_format image_path = "jpg").
Proof.
  intros e. unfold img_format, file_extension. fold e.
  rewrite img_format_map_get.
  repeat (case_decide; [tauto|]). tauto.
Qed.

(* --------------------------------------------------------------------- *)
(* The panel keeps its ranges                                            *)
(* --------------------------------------------------------------------- *)

Lemma setValue_ok lo hi val s :
  lo <= hi -> slider_ok lo hi s -> slider_ok lo hi (QSlider.setValue val s).
Proof.
  intros Hle (Hmin & Hmax & _).
  unfold slider_ok, QSlider.setValue, QSlider.bound; simpl.
  rewrite Hmin, Hmax. lia.
Qed.

Lemma activate_ok texts row c :
  combo_ok texts c -> combo_ok texts (QComboBox.activate row c).
Proof.
  intros [Hit Hidx]. unfold QComboBox.activate, QComboBox.count.
  destruct ((0 <=? row) && (row <? Z.of_nat (length (QComboBox.items c))))
    eqn:E; [|split; assumption].
  apply andb_true_iff in E as [E1 E2].
  apply Z.leb_le in E1. apply Z.ltb_lt in E2.
  split; simpl; [assumption|]. rewrite <- Hit. lia.
Qed.

Lemma init_ui_ok : panel_ok ParameterControlWidget.init_ui.
Proof.
  unfold panel_ok, combo_ok, slider_ok. vm_compute.
  repeat split; congruence.
Qed.

Lemma act_ok p a : panel_ok p -> panel_ok (ParameterControlWidget.act p a).
Proof.
  unfold panel_ok.
  intros (H1 & H2 & H3 & H4 & H5 & H6 & H7 & H8 & H9).
  destruct a; simpl; split_conj;
    first [assumption
          | apply activate_ok; assumption
          | apply setValue_ok; [lia | assumption]].
Qed.

Lemma session_ok session p :
  panel_ok p -> panel_ok (fold_left ParameterControlWidget.act session p).
Proof.
  revert p. induction session as [|a session IH]; intros p Hp; simpl.
  - exact Hp.
  - apply IH, act_ok, Hp.
Qed.

Lemma after_ok session : panel_ok (ParameterControlWidget.after session).
Proof. apply session_ok, init_ui_ok. Qed.

(* --------------------------------------------------------------------- *)
(* get_parameters                                                        *)
(* --------------------------------------------------------------------- *)

Lemma currentText_in texts c :
  combo_ok texts c -> In (QComboBox.currentText c) texts.
Proof.
  intros [Hit Hidx]. unfold QComboBox.currentText, QComboBox.count.
  rewrite Hit.
  replace ((0 <=? QComboBox.currentIndex c) &&
           (QComboBox.currentIndex c <? Z.of_nat (length texts)))
    with true by (symmetry; apply andb_true_iff; split;
                  [apply Z.leb_le | apply Z.ltb_lt]; lia).
  apply nth_In. lia.
Qed.

Lemma getitem_Spline :
  ParameterControlWidget.getitem ParameterControlWidget.curve_mode_names
    "Spline" = Return "spline".
Proof. vm_compute. reflexivity. Qed.

Lemma getitem_Polygon :
  ParameterControlWidget.getitem ParameterControlWidget.curve_mode_names
    "Polygon" = Return "polygon".
Proof. vm_compute. reflexivity. Qed.

Lemma getitem_Pixel :
  ParameterControlWidget.getitem ParameterControlWidget.curve_mode_names
    "Pixel" = Return "none".
Proof. vm_compute. reflexivity. Qed.

(** On a panel that kept its item lists, the lookup of the curve mode
    finds its key. *)
Lemma curve_mode_found p :
  panel_ok p ->
  let txt := QComboBox.currentText (ParameterControlWidget.curve_mode p) in
  (txt = "Spline" /\
   ParameterControlWidget.getitem ParameterControlWidget.curve_mode_names txt
     = Return "spline") \/
  (txt = "Polygon" /\
   ParameterControlWidget.getitem ParameterControlWidget.curve_mode_names txt
     = Return "polygon") \/
  (txt = "Pixel" /\
   ParameterControlWidget.getitem ParameterControlWidget.curve_mode_names txt
     = Return "none").
Proof.
  intros (_ & _ & Hm & _) txt.
  apply currentText_in in Hm. fold txt in Hm. clearbody txt.
  destruct Hm as [E|[E|[E|[]]]]; subst txt.
  - left. split; [reflexivity | apply getitem_Spline].
  - right; left. split; [reflexivity | apply getitem_Polygon].
  - right; right. split; [reflexivity | apply getitem_Pixel].
Qed.

(** The float handed over for a slider position. *)
Lemma tenths_in_bounds (v : Z) :
  35 <= v <= 100 ->
  length_in_bounds (PrimFloat.div (float_of_int v) 10%float) = true.
Proof.
  intros Hv.
  assert (Hall : forallb
            (fun k => length_in_bounds
                        (PrimFloat.div (float_of_int (35 + Z.of_nat k))
                           10%float))
            (seq 0 66) = true) by (vm_compute; reflexivity).
  rewrite forallb_forall in Hall.
  specialize (Hall (Z.to_nat (v - 35))).
  replace (35 + Z.of_nat (Z.to_nat (v - 35))) with v in Hall by lia.
  apply Hall, in_seq. lia.
Qed.

(** C3: after any session of user actions get_parameters returns a
    dictionary, and its numeric entries lie in the declared bounds:
    filter_speckle in 0..128, color_precision in 1..8, layer_difference in
    0..128, corner_threshold in 0..180, length_threshold in 3.5..10.0,
    splice_threshold in 0..180 and max_iterations equal to 10. *)
Theorem C3_snapshot_within_bounds
    (session : list ParameterControlWidget.action) :
  exists s : Params.t,
    ParameterControlWidget.get_parameters
      (ParameterControlWidget.after session) = Return s /\
    0 <= Params.filter_speckle s <= 128 /\
    1 <= Params.color_precision s <= 8 /\
    0 <= Params.layer_difference s <= 128 /\
    0 <= Params.corner_threshold s <= 180 /\
    PrimFloat.leb 3.5%float (Params.length_threshold s) = true /\
    PrimFloat.leb (Params.length_threshold s) 10%float = true /\
    0 <= Params.splice_threshold s <= 180 /\
    Params.max_iterations s = 10.
Proof.
  pose proof (after_ok session) as Hok.
  pose proof (curve_mode_found _ Hok) as Hm.
  destruct Hok as (_ & _ & _ & H4 & H5 & H6 & H7 & H8 & H9).
  unfold ParameterControlWidget.get_parameters.
  set (p := ParameterControlWidget.after session) in *.
  cbv zeta in Hm.
  assert (Hlen := tenths_in_bounds _ (proj2 (proj2 H8))).
  apply andb_true_iff in Hlen as [Hlo Hhi].
  destruct Hm as [[_ E]|[[_ E]|[_ E]]]; rewrite E;
    (eexists; split; [reflexivity|]; cbn [Params.filter_speckle
       Params.color_precision Params.layer_difference
       Params.corner_threshold Params.length_threshold
       Params.splice_threshold Params.max_iterations];
     unfold slider_ok in *; split_conj; try lia; assumption).
Qed.

(** The untouched panel gives the defaults written in init_ui. *)
Example get_parameters_defaults :
  ParameterControlWidget.get_parameters ParameterControlWidget.init_ui
  = Return default_params.
Proof. vm_compute. reflexivity. Qed.

(** A slider cannot be moved out of its range. *)
Example slider_is_clamped :
  QSlider.value
    (ParameterControlWidget.corner_threshold
       (ParameterControlWidget.after
          [ParameterControlWidget.move_corner_threshold 500])) = 180.
Proof. vm_compute. reflexivity. Qed.

(** C4 fails on the code: with the Segment Length slider moved to
    position 36, get_parameters hands out length_threshold = 36 / 10.0,
    the float nearest to 3.6, which is inside 3.5..10.0 and is none of
    3.5, 4.0, ..., 10.0. *)
Theorem C4_length_threshold_off_half_steps :
  exists s : Params.t,
    ParameterControlWidget.get_parameters
      (ParameterControlWidget.after
         [ParameterControlWidget.move_length_threshold 36]) = Return s /\
    Params.length_threshold s = PrimFloat.div 36%float 10%float /\
    length_in_bounds (Params.length_threshold s) = true /\
    on_half_step (Params.length_threshold s) = false.
Proof.
  eexists. split; [vm_compute; reflexivity|].
  vm_compute. repeat split; reflexivity.
Qed.

(** What the slider does give: every length_threshold is a tenth, the
    float v / 10.0 of an integer position v in 35..100. *)
Lemma length_threshold_is_a_tenth
    (session : list ParameterControlWidget.action) :
  exists (s : Params.t) (v : Z),
    ParameterControlWidget.get_parameters
      (ParameterControlWidget.after session) = Return s /\
    35 <= v <= 100 /\
    Params.length_threshold s = PrimFloat.div (float_of_int v) 10%float.
Proof.
  pose proof (after_ok session) as Hok.
  pose proof (curve_mode_found _ Hok) as Hm.
  destruct Hok as (_ & _ & _ & _ & _ & _ & _ & H8 & _).
  unfold ParameterControlWidget.get_parameters.
  set (p := ParameterControlWidget.after session) in *.
  cbv zeta in Hm.
  destruct Hm as [[_ E]|[[_ E]|[_ E]]]; rewrite E;
    (eexists; eexists; split; [reflexivity|]; split;
     [exact (proj2 (proj2 H8)) | reflexivity]).
Qed.

(** C5, as stated, fails: with Pixel selected the curve mode handed to the
    library is the text none, not pixel. *)
Lemma C5_pixel_counterexample :
  let p := ParameterControlWidget.after
             [ParameterControlWidget.pick_curve_mode 2] in
  QComboBox.currentText (ParameterControlWidget.curve_mode p) = "Pixel" /\
  exists s : Params.t,
    ParameterControlWidget.get_parameters p = Return s /\
    Params.mode s = "none" /\ Params.mode s <> "pixel".
Proof.
  split; [vm_compute; reflexivity|].
  eexists. split; [vm_compute; reflexivity|].
  split; [vm_compute; reflexivity | vm_compute; discriminate].
Qed.

(** C5, amended: after any session get_parameters returns a dictionary in
    which colormode is color for the selection Color and binary for B/W,
    hierarchical is stacked for Stacked and cutout for CutOut, and mode is
    spline for Spline, polygon for Polygon and none for Pixel. *)
Theorem C5_mode_selectors (session : list ParameterControlWidget.action) :
  let p := ParameterControlWidget.after session in
  exists s : Params.t,
    ParameterControlWidget.get_parameters p = Return s /\
    ((QComboBox.currentText (ParameterControlWidget.color_mode p) = "Color" /\
      Params.colormode s = "color") \/
     (QComboBox.currentText (ParameterControlWidget.color_mode p) = "B/W" /\
      Params.colormode s = "binary")) /\
    ((QComboBox.currentText (ParameterControlWidget.hierarchical_mode p)
        = "Stacked" /\
      Params.hierarchical s = "stacked") \/
     (QComboBox.currentText (ParameterControlWidget.hierarchical_mode p)
        = "CutOut" /\
      Params.hierarchical s = "cutout")) /\
    ((QComboBox.currentText (ParameterControlWidget.curve_mode p) = "Spline" /\
      Params.mode s = "spline") \/
     (QComboBox.currentText (ParameterControlWidget.curve_mode p) = "Polygon" /\
      Params.mode s = "polygon") \/
     (QComboBox.currentText (ParameterControlWidget.curve_mode p) = "Pixel" /\
      Params.mode s = "none")).
Proof.
  intros p.
  pose proof (after_ok session) as Hok. fold p in Hok.
  pose proof (curve_mode_found _ Hok) as Hm. cbv zeta in Hm.
  destruct Hok as (Hc & Hh & _).
  apply currentText_in in Hc. apply currentText_in in Hh.
  unfold ParameterControlWidget.get_parameters.
  assert (Hcol :
    let txt := QComboBox.currentText (ParameterControlWidget.color_mode p) in
    (txt = "Color" /\
     (if String.eqb txt "Color" then "color" else "binary") = "color") \/
    (txt = "B/W" /\
     (if String.eqb txt "Color" then "color" else "binary") = "binary")).
  { cbv zeta. destruct Hc as [E|[E|[]]]; rewrite <- E;
      [left | right]; split; reflexivity. }
  assert (Hhier :
    let txt :=
      QComboBox.currentText (ParameterControlWidget.hierarchical_mode p) in
    (txt = "Stacked" /\
     (if String.eqb txt "Stacked" then "stacked" else "cutout") = "stacked") \/
    (txt = "CutOut" /\
     (if String.eqb txt "Stacked" then "stacked" else "cutout") = "cutout")).
  { cbv zeta. destruct Hh as [E|[E|[]]]; rewrite <- E;
      [left | right]; split; reflexivity. }
  cbv zeta in Hcol, Hhier.
  destruct Hm as [[Et E]|[[Et E]|[Et E]]]; rewrite E;
    (eexists; split; [reflexivity|];
     cbn [Params.colormode Params.hierarchical Params.mode];
     split; [exact Hcol | split; [exact Hhier | tauto]]).
Qed.

(* --------------------------------------------------------------------- *)
(* ConversionWorker.run                                                  *)
(* --------------------------------------------------------------------- *)

Section RunFacts.

Variable lib : string -> string -> Params.t -> result string.
Variable w : World.

(** The three ways through run: the file cannot be read, the library
    raises, the library returns. *)
Lemma run_cases (self : ConversionWorker.t) :
  let path := ConversionWorker.image_path self in
  (files w !! path = None /\
   ConversionWorker.run lib w self =
     [progress 10;
      error (ConversionWorker.error_prefix ++ exn_str (oserror w path))]) \/
  (exists image_bytes e,
     files w !! path = Some image_bytes /\
     lib image_bytes (img_format path) (ConversionWorker.params self)
       = Raise e /\
     ConversionWorker.run lib w self =
       [progress 10; progress 30; progress 50;
        error (ConversionWorker.error_prefix ++ exn_str e)]) \/
  (exists image_bytes svg,
     files w !! path = Some image_bytes /\
     lib image_bytes (img_format path) (ConversionWorker.params self)
       = Return svg /\
     ConversionWorker.run lib w self =
       [progress 10; progress 30; progress 50; progress 100; finished svg]).
Proof.
  intros path.
  unfold ConversionWorker.run, ConversionWorker.run_body, open_rb_read.
  fold path.
  destruct (files w !! path) as [image_bytes|] eqn:Hf.
  - right.
    destruct (lib image_bytes (img_format path) (ConversionWorker.params self))
      as [svg|e] eqn:Hl.
    + right. exists image_bytes, svg.
      split; [reflexivity | split; [exact Hl|]].
      unfold call, bind, emit, try_except. rewrite Hl. reflexivity.
    + left. exists image_bytes, e.
      split; [reflexivity | split; [exact Hl|]].
      unfold call, bind, emit, try_except. rewrite Hl. reflexivity.
  - left. split; reflexivity.
Qed.

End RunFacts.

(** C1: for every library, world, image path and parameter dictionary,
    the signals emitted by one run hold exactly one terminal signal:
    either one finished with the SVG text or one error with a message,
    never none and never both. *)
Theorem C1_exactly_one_terminal_signal
    (lib : string -> string -> Params.t -> result string)
    (w : World) (self : ConversionWorker.t) :
  (exists svg,
     List.filter is_terminal (ConversionWorker.run lib w self)
       = [finished svg]) \/
  (exists msg,
     List.filter is_terminal (ConversionWorker.run lib w self)
       = [error msg]).
Proof.
  destruct (run_cases lib w self) as
    [[_ E]|[(b & e & _ & _ & E)|(b & svg & _ & _ & E)]]; rewrite E.
  - right. eexists. reflexivity.
  - right. eexists. reflexivity.
  - left. eexists. reflexivity.
Qed.

(** A run on a readable file: four progress marks, then the SVG text. *)
Example run_success :
  let w := {| files := {["/tmp/cat.PNG" := "raw image bytes"]};
              oserror := oserror (empty_world (String LF ""));
              can_write := fun _ => true;
              linesep := String LF "" |} in
  ConversionWorker.run toy_library w
    {| ConversionWorker.image_path := "/tmp/cat.PNG";
       ConversionWorker.params := default_params |}
  = [progress 10; progress 30; progress 50; progress 100;
     finished ("<svg>" ++ String LF "</svg>")].
Proof. vm_compute. reflexivity. Qed.

(** C6: when the image path cannot be read, the run emits an error signal
    and no finished signal. *)
Theorem C6_unreadable_path_gives_error
    (lib : string -> string -> Params.t -> result string)
    (w : World) (self : ConversionWorker.t) :
  files w !! ConversionWorker.image_path self = None ->
  (exists msg, In (error msg) (ConversionWorker.run lib w self)) /\
  (forall svg, ~ In (finished svg) (ConversionWorker.run lib w self)).
Proof.
  intros Hnone.
  destruct (run_cases lib w self) as
    [[_ E]|[(b & e & Hf & _)|(b & svg & Hf & _)]];
    [|congruence|congruence].
  rewrite E. split.
  - eexists. right. left. reflexivity.
  - intros svg [H|[H|[]]]; discriminate.
Qed.

Lemma C6_unreadable_path_witness :
  let self := {| ConversionWorker.image_path := "/no/such/file.png";
                 ConversionWorker.params := default_params |} in
  let w := empty_world (String LF "") in
  files w !! ConversionWorker.image_path self = None /\
  (exists msg, In (error msg) (ConversionWorker.run toy_library w self)) /\
  (forall svg, ~ In (finished svg) (ConversionWorker.run toy_library w self)).
Proof.
  intros self w. split; [reflexivity|].
  apply (C6_unreadable_path_gives_error toy_library w self).
  reflexivity.
Defined.

(* --------------------------------------------------------------------- *)
(* VTracerGUI: save_svg, convert_image and the two result slots          *)
(* --------------------------------------------------------------------- *)

(** C7: with no conversion result held (current_svg_content is None),
    save_svg changes neither the files nor the window, whatever the file
    dialog would answer. *)
Theorem C7_save_without_result_is_noop
    (getSaveFileName : string -> string) (w : World) (self : VTracerGUI.t) :
  VTracerGUI.current_svg_content self = None ->
  VTracerGUI.save_svg getSaveFileName w self = (w, self).
Proof.
  intros Hnone. unfold VTracerGUI.save_svg. rewrite Hnone. reflexivity.
Qed.

Lemma C7_save_without_result_witness :
  VTracerGUI.current_svg_content VTracerGUI.init = None /\
  VTracerGUI.save_svg (fun _ => "out.svg") (empty_world (String LF ""))
    VTracerGUI.init
  = (empty_world (String LF ""), VTracerGUI.init).
Proof.
  split; [reflexivity|].
  apply (C7_save_without_result_is_noop (fun _ => "out.svg")
           (empty_world (String LF "")) VTracerGUI.init).
  reflexivity.
Defined.

(** The same guard also skips an empty result. *)
Lemma save_empty_result_is_noop
    (getSaveFileName : string -> string) (w : World) (self : VTracerGUI.t) :
  VTracerGUI.current_svg_content self = Some "" ->
  VTracerGUI.save_svg getSaveFileName w self = (w, self).
Proof.
  intros Hnone. unfold VTracerGUI.save_svg. rewrite Hnone. reflexivity.
Qed.

(** Writing in text mode where os.linesep is the line feed itself keeps
    the text. *)
Lemma replace_LF_LF (s : string) : Str.replace LF (String LF "") s = s.
Proof.
  induction s as [|c s IH]; simpl; [reflexivity|].
  destruct (Ascii.eqb c LF) eqn:E.
  - apply Ascii.eqb_eq in E. subst c. simpl. rewrite IH. reflexivity.
  - rewrite IH. reflexivity.
Qed.

(** C8, as stated, fails twice.  An empty payload is not saved at all: the
    guard of save_svg returns before the dialog, and no file exists at the
    chosen path afterwards.  And where os.linesep is CR LF, a payload with
    a line feed is written with CR LF in its place, so the bytes read back
    differ from the payload. *)
Lemma C8_round_trip_counterexample :
  (let w := empty_world (String LF "") in
   let g := VTracerGUI.on_conversion_finished "" VTracerGUI.init in
   read_back (fst (VTracerGUI.save_svg (fun _ => "out.svg") w g)) "out.svg"
   = None) /\
  (let w := empty_world (String CR (String LF "")) in
   let payload := "<svg>" ++ String LF "</svg>" in
   let g := VTracerGUI.on_conversion_finished payload VTracerGUI.init in
   read_back (fst (VTracerGUI.save_svg (fun _ => "out.svg") w g)) "out.svg"
   = Some ("<svg>" ++ String CR (String LF "</svg>")) /\
   read_back (fst (VTracerGUI.save_svg (fun _ => "out.svg") w g)) "out.svg"
   <> Some payload).
Proof.
  split; [vm_compute; reflexivity|].
  split; [vm_compute; reflexivity | vm_compute; discriminate].
Qed.

(** C8, amended: a payload that is not empty, saved right after its
    conversion to a chosen path that is not empty and can be opened for
    writing, on a platform whose line separator is the line feed, is read
    back byte for byte. *)
Theorem C8_save_round_trip
    (w : World) (self : VTracerGUI.t) (payload file_path : string) :
  payload <> "" ->
  file_path <> "" ->
  can_write w file_path = true ->
  linesep w = String LF "" ->
  read_back
    (fst (VTracerGUI.save_svg (fun _ => file_path) w
            (VTracerGUI.on_conversion_finished payload self)))
    file_path
  = Some payload.
Proof.
  intros Hpay Hpath Hcan Hsep.
  unfold VTracerGUI.save_svg.
  cbn [VTracerGUI.on_conversion_finished VTracerGUI.show_box
       VTracerGUI.current_svg_content VTracerGUI.current_image_path].
  destruct payload as [|c payload]; [congruence|].
  cbn [Str.truthy negb default].
  destruct file_path as [|d file_path]; [congruence|].
  unfold open_w_write. rewrite Hcan, Hsep, replace_LF_LF.
  cbn [fst]. unfold read_back. cbn [files].
  apply lookup_insert_eq.
Qed.

Lemma C8_save_round_trip_witness :
  let w := empty_world (String LF "") in
  let payload := "<svg>" ++ String LF "</svg>" in
  payload <> "" /\ "out.svg" <> "" /\
  can_write w "out.svg" = true /\ linesep w = String LF "" /\
  read_back
    (fst (VTracerGUI.save_svg (fun _ => "out.svg") w
            (VTracerGUI.on_conversion_finished payload VTracerGUI.init)))
    "out.svg"
  = Some payload.
Proof.
  intros w payload.
  assert (H1 : payload <> "") by (vm_compute; discriminate).
  assert (H2 : "out.svg" <> "") by discriminate.
  assert (H3 : can_write w "out.svg" = true) by reflexivity.
  assert (H4 : linesep w = String LF "") by reflexivity.
  split_conj; try assumption.
  exact (C8_save_round_trip w VTracerGUI.init payload "out.svg" H1 H2 H3 H4).
Defined.

(** C9: with no image loaded (current_image_path is None), convert_image
    returns at once: the window is unchanged (no worker is assigned or
    started, the convert button and the progress bar are as before) and no
    exception leaves the method. *)
Theorem C9_convert_without_image_is_noop (self : VTracerGUI.t) :
  VTracerGUI.current_image_path self = None ->
  VTracerGUI.convert_image self = (self, None).
Proof.
  intros Hnone. unfold VTracerGUI.convert_image. rewrite Hnone. reflexivity.
Qed.

Lemma C9_convert_without_image_witness :
  VTracerGUI.current_image_path VTracerGUI.init = None /\
  VTracerGUI.convert_image VTracerGUI.init = (VTracerGUI.init, None).
Proof.
  split; [reflexivity|].
  apply (C9_convert_without_image_is_noop VTracerGUI.init). reflexivity.
Defined.

(** With an image loaded, convert_image does start a worker: the guard is
    the only way to leave the window untouched. *)
Example convert_after_load :
  let g := fst (VTracerGUI.convert_image
                  (VTracerGUI.load_image "/tmp/cat.png" VTracerGUI.init)) in
  VTracerGUI.convert_button_enabled g = false /\
  VTracerGUI.progress_bar_visible g = true /\
  VTracerGUI.progress_bar_value g = 0 /\
  (exists wk, VTracerGUI.conversion_worker g = Some wk /\
              ConversionWorker.image_path wk = "/tmp/cat.png").
Proof.
  vm_compute. split_conj; try reflexivity.
  eexists. split; reflexivity.
Qed.

(** The error slot and the progress slot leave the held result and the
    save button alone. *)
Lemma on_conversion_error_frame (msg : string) (self : VTracerGUI.t) :
  VTracerGUI.current_svg_content (VTracerGUI.on_conversion_error msg self)
    = VTracerGUI.current_svg_content self /\
  VTracerGUI.save_button_enabled (VTracerGUI.on_conversion_error msg self)
    = VTracerGUI.save_button_enabled self.
Proof. split; reflexivity. Qed.

Lemma deliver_frame (sigs : list signal) (self : VTracerGUI.t) :
  (forall svg, ~ In (finished svg) sigs) ->
  VTracerGUI.current_svg_content (fold_left VTracerGUI.deliver sigs self)
    = VTracerGUI.current_svg_content self /\
  VTracerGUI.save_button_enabled (fold_left VTracerGUI.deliver sigs self)
    = VTracerGUI.save_button_enabled self.
Proof.
  revert self. induction sigs as [|s sigs IH]; intros self Hno; simpl.
  - split; reflexivity.
  - destruct (IH (VTracerGUI.deliver self s)) as [E1 E2].
    { intros svg Hin. apply (Hno svg). right. exact Hin. }
    rewrite E1, E2.
    destruct s as [svg|msg|n]; simpl.
    + exfalso. apply (Hno svg). left. reflexivity.
    + split; reflexivity.
    + split; reflexivity.
Qed.

Lemma terminal_error_no_finished (sigs : list signal) (msg : string) :
  List.filter is_terminal sigs = [error msg] ->
  forall svg, ~ In (finished svg) sigs.
Proof.
  intros Hf svg Hin.
  assert (Hin' : In (finished svg) (List.filter is_terminal sigs)).
  { apply filter_In. split; [exact Hin | reflexivity]. }
  rewrite Hf in Hin'. destruct Hin' as [H|[]]. discriminate.
Qed.

(** C10: when the worker held by the window ends with an error, the
    delivery of its signals leaves current_svg_content and the enabled
    state of the save button as they were; a result held from an earlier
    conversion is still held, and the save button that it enabled is still
    enabled. *)
Theorem C10_failed_conversion_keeps_result
    (lib : string -> string -> Params.t -> result string)
    (w : World) (self : VTracerGUI.t) (wk : ConversionWorker.t)
    (msg : string) :
  VTracerGUI.conversion_worker self = Some wk ->
  List.filter is_terminal (ConversionWorker.run lib w wk) = [error msg] ->
  VTracerGUI.current_svg_content (VTracerGUI.run_worker lib w self)
    = VTracerGUI.current_svg_content self /\
  VTracerGUI.save_button_enabled (VTracerGUI.run_worker lib w self)
    = VTracerGUI.save_button_enabled self.
Proof.
  intros Hwk Herr. unfold VTracerGUI.run_worker. rewrite Hwk.
  apply deliver_frame. exact (terminal_error_no_finished _ _ Herr).
Qed.

Lemma C10_failed_conversion_witness :
  let w := empty_world (String LF "") in
  let self := after_success_then_retry in
  let wk := {| ConversionWorker.image_path := "/no/such/file.png";
               ConversionWorker.params := default_params |} in
  let msg := ConversionWorker.error_prefix ++
             exn_str (oserror w "/no/such/file.png") in
  VTracerGUI.conversion_worker self = Some wk /\
  List.filter is_terminal (ConversionWorker.run toy_library w wk)
    = [error msg] /\
  VTracerGUI.current_svg_content (VTracerGUI.run_worker toy_library w self)
    = Some "<svg/>" /\
  VTracerGUI.save_button_enabled (VTracerGUI.run_worker toy_library w self)
    = true.
Proof.
  intros w self wk msg.
  assert (Hwk : VTracerGUI.conversion_worker self = Some wk)
    by (vm_compute; reflexivity).
  assert (Herr : List.filter is_terminal
                   (ConversionWorker.run toy_library w wk) = [error msg])
    by (vm_compute; reflexivity).
  split; [exact Hwk|]. split; [exact Herr|].
  exact (C10_failed_conversion_keeps_result toy_library w self wk msg
           Hwk Herr).
Defined.

(* ===================================================================== *)
(* Further properties of the code                                        *)
(* ===================================================================== *)

(* --------------------------------------------------------------------- *)
(* The two tables of suffixes                                            *)
(* --------------------------------------------------------------------- *)

Lemma img_format_map_lookup (e : string) :
  img_format_map !! e =
    if decide (e = ".jpg") then Some "jpg"
    else if decide (e = ".jpeg") then Some "jpg"
    else if decide (e = ".png") then Some "png"
    else if decide (e = ".bmp") then Some "bmp"
    else if decide (e = ".gif") then Some "gif"
    else if decide (e = ".tiff") then Some "tiff"
    else None.
Proof.
  unfold img_format_map.
  repeat (case_decide; [subst e; vm_compute; reflexivity|]).
  rewrite !lookup_insert_ne by congruence.
  apply lookup_empty.
Qed.

Lemma extensions_spec (e : string) :
  e ∈ ImageDropWidget.extensions <->
  e = ".png" \/ e = ".jpg" \/ e = ".jpeg" \/ e = ".bmp" \/ e = ".gif" \/
  e = ".tiff".
Proof.
  unfold ImageDropWidget.extensions.
  rewrite !elem_of_union, !elem_of_singleton. tauto.
Qed.

Lemma is_image_file_lookup (file_path : string) :
  ImageDropWidget.is_image_file file_path = true <->
  is_Some (img_format_map !! file_extension file_path).
Proof.
  unfold ImageDropWidget.is_image_file, file_extension.
  rewrite bool_decide_eq_true, extensions_spec, img_format_map_lookup.
  generalize (Str.lower (Path.suffix file_path)) as e. intros e.
  repeat (case_decide; [split; [eauto | tauto]|]).
  split; [tauto|]. intros [x Hx]. discriminate.
Qed.

(** X1: the set of is_image_file and the keys of img_format_map are the
    same suffixes: a path is accepted as an image exactly when the worker
    finds its lower-cased suffix in the table. *)
Theorem is_image_file_iff_known_format (file_path : string) :
  ImageDropWidget.is_image_file file_path = true <->
  is_Some (img_format_map !! file_extension file_path).
Proof.
  unfold ImageDropWidget.is_image_file, file_extension.
  rewrite bool_decide_eq_true, extensions_spec, img_format_map_lookup.
  generalize (Str.lower (Path.suffix file_path)) as e. intros e.
  repeat (case_decide; [split; [eauto | tauto]|]).
  split; [tauto|]. intros [x Hx]. discriminate.
Qed.

(** X2: whatever the path, the tag handed to the library is one of jpg,
    png, bmp, gif and tiff. *)
Theorem img_format_is_a_known_tag (image_path : string) :
  In (img_format image_path) ["jpg"; "png"; "bmp"; "gif"; "tiff"].
Proof.
  unfold img_format. rewrite img_format_map_get.
  repeat (case_decide; [simpl; tauto|]). simpl; tauto.
Qed.

(** An accepted path has a suffix, so it is not the empty text. *)
Lemma is_image_file_truthy (file_path : string) :
  ImageDropWidget.is_image_file file_path = true ->
  Str.truthy (Some file_path) = true.
Proof.
  destruct file_path as [|c s]; [|reflexivity].
  vm_compute. discriminate.
Qed.

(** X3: a drop loads at most its first URL, and only when that one is an
    image file: the signal carries p exactly when p is the first URL and
    is_image_file accepts it, whatever follows in the list. *)
Theorem dropEvent_first_url_only (urls : list string) (p : string) :
  ImageDropWidget.dropEvent urls = Some p <->
  head urls = Some p /\ ImageDropWidget.is_image_file p = true.
Proof.
  destruct urls as [|u rest]; simpl.
  - split; [discriminate | intros [H _]; discriminate].
  - destruct (ImageDropWidget.is_image_file u) eqn:E; split.
    + intros H. injection H as <-. split; [reflexivity | exact E].
    + intros [H _]. exact H.
    + discriminate.
    + intros [H Hp]. injection H as ->. congruence.
Qed.

(** The path sent by either way of choosing an image is an image file. *)
Lemma dropEvent_image urls p :
  ImageDropWidget.dropEvent urls = Some p ->
  ImageDropWidget.is_image_file p = true.
Proof.
  destruct urls as [|u rest]; simpl; [discriminate|].
  destruct (ImageDropWidget.is_image_file u) eqn:E; [|discriminate].
  intros H. injection H as <-. exact E.
Qed.

Lemma mousePressEvent_image button answer p :
  ImageDropWidget.mousePressEvent button answer = Some p ->
  ImageDropWidget.is_image_file p = true.
Proof.
  destruct button; simpl; [|discriminate].
  unfold ImageDropWidget.select_file.
  destruct (Str.truthy (Some answer)); simpl; [|discriminate].
  destruct (ImageDropWidget.is_image_file answer) eqn:E; [|discriminate].
  intros H. injection H as <-. exact E.
Qed.

(* --------------------------------------------------------------------- *)
(* The panel: what get_parameters reads                                  *)
(* --------------------------------------------------------------------- *)

(** The numeric entries are the slider values, read without change. *)
Lemma get_parameters_fields p s :
  ParameterControlWidget.get_parameters p = Return s ->
  Params.filter_speckle s
    = QSlider.value (ParameterControlWidget.filter_speckle p) /\
  Params.color_precision s
    = QSlider.value (ParameterControlWidget.color_precision p) /\
  Params.layer_difference s
    = QSlider.value (ParameterControlWidget.layer_difference p) /\
  Params.corner_threshold s
    = QSlider.value (ParameterControlWidget.corner_threshold p) /\
  Params.length_threshold s
    = PrimFloat.div
        (float_of_int
           (QSlider.value (ParameterControlWidget.length_threshold p)))
        10%float /\
  Params.splice_threshold s
    = QSlider.value (ParameterControlWidget.splice_threshold p) /\
  Params.max_iterations s = 10.
Proof.
  unfold ParameterControlWidget.get_parameters.
  destruct (ParameterControlWidget.getitem _ _) as [m|e]; [|discriminate].
  intros H. injection H as <-. cbn. split_conj; reflexivity.
Qed.

(** On a panel that kept its ranges and item lists get_parameters
    returns, and the dictionary is within bounds. *)
Lemma get_parameters_ok p :
  panel_ok p ->
  exists s, ParameterControlWidget.get_parameters p = Return s /\ params_ok s.
Proof.
  intros Hok.
  pose proof (curve_mode_found _ Hok) as Hm. cbv zeta in Hm.
  destruct Hok as (_ & _ & _ & H4 & H5 & H6 & H7 & H8 & H9).
  assert (Hlen := tenths_in_bounds _ (proj2 (proj2 H8))).
  unfold ParameterControlWidget.get_parameters.
  destruct Hm as [[_ E]|[[_ E]|[_ E]]]; rewrite E;
    (eexists; split; [reflexivity|]; unfold params_ok;
     cbn [Params.colormode Params.hierarchical Params.mode
          Params.filter_speckle Params.color_precision
          Params.layer_difference Params.corner_threshold
          Params.length_threshold Params.splice_threshold
          Params.max_iterations];
     unfold slider_ok in *; split_conj;
     try lia; try assumption; try reflexivity;
     try (destruct (String.eqb _ _); simpl; tauto);
     simpl; tauto).
Qed.

Lemma after_snoc session a :
  ParameterControlWidget.after (session ++ [a])%list
  = ParameterControlWidget.act (ParameterControlWidget.after session) a.
Proof.
  unfold ParameterControlWidget.after. rewrite fold_left_app. reflexivity.
Qed.

Lemma setValue_value lo hi val s :
  slider_ok lo hi s -> QSlider.value (QSlider.setValue val s) = clamp lo hi val.
Proof.
  intros (Hmin & Hmax & _). unfold QSlider.setValue, QSlider.bound, clamp.
  simpl. rewrite Hmin, Hmax. reflexivity.
Qed.

(** X4: a slider cannot hand out a value outside its range.  Whatever
    position v the user asks for, after whatever session, the entry read
    by get_parameters is v forced into the range of that slider, and the
    segment length is that position divided by 10.0. *)
Theorem slider_entries_are_clamped
    (session : list ParameterControlWidget.action) (v : Z) :
  (exists s,
     ParameterControlWidget.get_parameters
       (ParameterControlWidget.after
          (session ++ [ParameterControlWidget.move_filter_speckle v])%list)
     = Return s /\ Params.filter_speckle s = clamp 0 128 v) /\
  (exists s,
     ParameterControlWidget.get_parameters
       (ParameterControlWidget.after
          (session ++ [ParameterControlWidget.move_color_precision v])%list)
     = Return s /\ Params.color_precision s = clamp 1 8 v) /\
  (exists s,
     ParameterControlWidget.get_parameters
       (ParameterControlWidget.after
          (session ++ [ParameterControlWidget.move_layer_difference v])%list)
     = Return s /\ Params.layer_difference s = clamp 0 128 v) /\
  (exists s,
     ParameterControlWidget.get_parameters
       (ParameterControlWidget.after
          (session ++ [ParameterControlWidget.move_corner_threshold v])%list)
     = Return s /\ Params.corner_threshold s = clamp 0 180 v) /\
  (exists s,
     ParameterControlWidget.get_parameters
       (ParameterControlWidget.after
          (session ++ [ParameterControlWidget.move_length_threshold v])%list)
     = Return s /\
     Params.length_threshold s
     = PrimFloat.div (float_of_int (clamp 35 100 v)) 10%float) /\
  (exists s,
     ParameterControlWidget.get_parameters
       (ParameterControlWidget.after
          (session ++ [ParameterControlWidget.move_splice_threshold v])%list)
     = Return s /\ Params.splice_threshold s = clamp 0 180 v).
Proof.
  pose proof (after_ok session) as Hok.
  split_conj;
    match goal with
    | |- exists s, ParameterControlWidget.get_parameters
                     (ParameterControlWidget.after (_ ++ [?a])%list) = _ /\ _ =>
        destruct (get_parameters_ok _ (after_ok (session ++ [a])%list))
          as (s & Hs & _);
        exists s; split; [exact Hs|];
        apply get_parameters_fields in Hs;
        rewrite after_snoc in Hs; cbn in Hs;
        destruct Hs as (F1 & F2 & F3 & F4 & F5 & F6 & _)
    end;
    destruct Hok as (_ & _ & _ & H4 & H5 & H6 & H7 & H8 & H9).
  - rewrite F1. exact (setValue_value _ _ _ _ H4).
  - rewrite F2. exact (setValue_value _ _ _ _ H5).
  - rewrite F3. exact (setValue_value _ _ _ _ H6).
  - rewrite F4. exact (setValue_value _ _ _ _ H7).
  - rewrite F5, <- (setValue_value _ _ v _ H8). reflexivity.
  - rewrite F6. exact (setValue_value _ _ _ _ H9).
Qed.

(* --------------------------------------------------------------------- *)
(* ConversionWorker.run: milestones and the use of the library           *)
(* --------------------------------------------------------------------- *)

(** X5: the progress values of a run are 10 alone, or 10, 30, 50, or 10,
    30, 50, 100: always rising, never above 100; and 100 is announced
    exactly when the run delivers a result. *)
Theorem progress_milestones
    (lib : string -> string -> Params.t -> result string)
    (w : World) (self : ConversionWorker.t) :
  let sigs := ConversionWorker.run lib w self in
  (progress_values sigs = [10] \/
   progress_values sigs = [10; 30; 50] \/
   progress_values sigs = [10; 30; 50; 100]) /\
  (In 100 (progress_values sigs) <-> exists svg, In (finished svg) sigs).
Proof.
  intros sigs. subst sigs.
  destruct (run_cases lib w self) as
    [[_ E]|[(b & e & _ & _ & E)|(b & svg & _ & _ & E)]]; rewrite E; simpl.
  - split; [tauto|]. split.
    + intros [H|[]]; discriminate.
    + intros (svg & [H|[H|[]]]); discriminate.
  - split; [tauto|]. split.
    + intros [H|[H|[H|[]]]]; discriminate.
    + intros (svg & [H|[H|[H|[H|[]]]]]); discriminate.
  - split; [tauto|]. split.
    + intros _. exists svg. tauto.
    + intros _. tauto.
Qed.

(** X6: the terminal signal closes the run: every signal before it is a
    progress mark and nothing is emitted after it. *)
Theorem terminal_signal_is_last
    (lib : string -> string -> Params.t -> result string)
    (w : World) (self : ConversionWorker.t) :
  exists (marks : list Z) (t : signal),
    ConversionWorker.run lib w self = (map progress marks ++ [t])%list /\
    is_terminal t = true.
Proof.
  destruct (run_cases lib w self) as
    [[_ E]|[(b & e & _ & _ & E)|(b & svg & _ & _ & E)]]; rewrite E.
  - exists [10]. eexists. split; reflexivity.
  - exists [10; 30; 50]. eexists. split; reflexivity.
  - exists [10; 30; 50; 100]. eexists. split; reflexivity.
Qed.

(** X7: a run consults the library at most once, on the bytes read from
    the image path, with the tag of that path and the dictionary of the
    worker, and on nothing else: two libraries that agree on that one
    call give the same signals.  In particular the library plays no part
    when the file cannot be read. *)
Theorem run_uses_library_once
    (lib1 lib2 : string -> string -> Params.t -> result string)
    (w : World) (self : ConversionWorker.t) :
  (forall image_bytes,
     files w !! ConversionWorker.image_path self = Some image_bytes ->
     lib1 image_bytes (img_format (ConversionWorker.image_path self))
       (ConversionWorker.params self)
     = lib2 image_bytes (img_format (ConversionWorker.image_path self))
         (ConversionWorker.params self)) ->
  ConversionWorker.run lib1 w self = ConversionWorker.run lib2 w self.
Proof.
  intros Hagree.
  unfold ConversionWorker.run, ConversionWorker.run_body, open_rb_read.
  destruct (files w !! ConversionWorker.image_path self) as [b|] eqn:Hf;
    [|reflexivity].
  unfold call, bind, emit, try_except.
  rewrite (Hagree b eq_refl). reflexivity.
Qed.

Lemma run_uses_library_once_witness :
  let self := {| ConversionWorker.image_path := "/tmp/cat.png";
                 ConversionWorker.params := default_params |} in
  (forall image_bytes,
     files cat_world !! ConversionWorker.image_path self = Some image_bytes ->
     toy_library image_bytes (img_format (ConversionWorker.image_path self))
       (ConversionWorker.params self)
     = png_only_library image_bytes
         (img_format (ConversionWorker.image_path self))
         (ConversionWorker.params self)) /\
  ConversionWorker.run toy_library cat_world self
  = ConversionWorker.run png_only_library cat_world self.
Proof.
  intros self.
  assert (H : forall image_bytes,
     files cat_world !! ConversionWorker.image_path self = Some image_bytes ->
     toy_library image_bytes (img_format (ConversionWorker.image_path self))
       (ConversionWorker.params self)
     = png_only_library image_bytes
         (img_format (ConversionWorker.image_path self))
         (ConversionWorker.params self))
    by (intros image_bytes _; vm_compute; reflexivity).
  split; [exact H|].
  exact (run_uses_library_once toy_library png_only_library cat_world self H).
Defined.

(* --------------------------------------------------------------------- *)
(* One conversion seen from the window                                   *)
(* --------------------------------------------------------------------- *)

(** X8: whatever the outcome, once the signals of the worker have reached
    their slots the convert button is enabled again, the progress bar is
    hidden, and exactly one message box has been added. *)
Theorem conversion_end_restores_controls
    (lib : string -> string -> Params.t -> result string)
    (w : World) (self : VTracerGUI.t) (wk : ConversionWorker.t) :
  VTracerGUI.conversion_worker self = Some wk ->
  VTracerGUI.convert_button_enabled (VTracerGUI.run_worker lib w self) = true /\
  VTracerGUI.progress_bar_visible (VTracerGUI.run_worker lib w self) = false /\
  exists box,
    VTracerGUI.message_boxes (VTracerGUI.run_worker lib w self)
    = (VTracerGUI.message_boxes self ++ [box])%list.
Proof.
  intros Hwk. unfold VTracerGUI.run_worker. rewrite Hwk.
  destruct (run_cases lib w wk) as
    [[_ E]|[(b & e & _ & _ & E)|(b & svg & _ & _ & E)]]; rewrite E;
    cbn; split_conj; try reflexivity; eexists; reflexivity.
Qed.

Lemma conversion_end_restores_controls_witness :
  let self := fst (VTracerGUI.convert_image
                     (VTracerGUI.load_image "/tmp/cat.png" VTracerGUI.init)) in
  let wk := {| ConversionWorker.image_path := "/tmp/cat.png";
               ConversionWorker.params := default_params |} in
  VTracerGUI.conversion_worker self = Some wk /\
  VTracerGUI.convert_button_enabled self = false /\
  VTracerGUI.convert_button_enabled
    (VTracerGUI.run_worker toy_library cat_world self) = true /\
  VTracerGUI.progress_bar_visible
    (VTracerGUI.run_worker toy_library cat_world self) = false /\
  exists box,
    VTracerGUI.message_boxes
      (VTracerGUI.run_worker toy_library cat_world self)
    = (VTracerGUI.message_boxes self ++ [box])%list.
Proof.
  intros self wk.
  assert (Hwk : VTracerGUI.conversion_worker self = Some wk)
    by (vm_compute; reflexivity).
  split; [exact Hwk|]. split; [vm_compute; reflexivity|].
  exact (conversion_end_restores_controls toy_library cat_world self wk Hwk).
Defined.

(** X9: a conversion whose file is readable and whose library call
    returns leaves the window holding that very text: it is the stored
    result and the content of the preview, the save button is enabled,
    the progress bar stands at 100, and the box shown is the completion
    notice. *)
Theorem successful_conversion_outcome
    (lib : string -> string -> Params.t -> result string)
    (w : World) (self : VTracerGUI.t) (wk : ConversionWorker.t)
    (image_bytes svg : string) :
  VTracerGUI.conversion_worker self = Some wk ->
  files w !! ConversionWorker.image_path wk = Some image_bytes ->
  lib image_bytes (img_format (ConversionWorker.image_path wk))
    (ConversionWorker.params wk) = Return svg ->
  let self' := VTracerGUI.run_worker lib w self in
  VTracerGUI.current_svg_content self' = Some svg /\
  VTracerGUI.svg_widget self' = Some svg /\
  VTracerGUI.save_button_enabled self' = true /\
  VTracerGUI.progress_bar_value self' = 100 /\
  VTracerGUI.message_boxes self'
  = (VTracerGUI.message_boxes self ++ box_of (finished svg))%list.
Proof.
  intros Hwk Hf Hl self'. subst self'.
  unfold VTracerGUI.run_worker. rewrite Hwk.
  destruct (run_cases lib w wk) as
    [[Hn _]|[(b & e & Hb & He & _)|(b & svg' & Hb & Hs & E)]].
  - congruence.
  - rewrite Hf in Hb. injection Hb as <-. congruence.
  - rewrite Hf in Hb. injection Hb as <-.
    rewrite Hl in Hs. injection Hs as <-.
    rewrite E. cbn. split_conj; reflexivity.
Qed.

Lemma successful_conversion_outcome_witness :
  let self := fst (VTracerGUI.convert_image
                     (VTracerGUI.load_image "/tmp/cat.png" VTracerGUI.init)) in
  let wk := {| ConversionWorker.image_path := "/tmp/cat.png";
               ConversionWorker.params := default_params |} in
  let svg := "<svg>" ++ String LF "</svg>" in
  let self' := VTracerGUI.run_worker toy_library cat_world self in
  VTracerGUI.conversion_worker self = Some wk /\
  files cat_world !! ConversionWorker.image_path wk = Some "raw image bytes" /\
  toy_library "raw image bytes" (img_format (ConversionWorker.image_path wk))
    (ConversionWorker.params wk) = Return svg /\
  VTracerGUI.current_svg_content self' = Some svg /\
  VTracerGUI.svg_widget self' = Some svg /\
  VTracerGUI.save_button_enabled self' = true /\
  VTracerGUI.progress_bar_value self' = 100 /\
  VTracerGUI.message_boxes self'
  = (VTracerGUI.message_boxes self ++ box_of (finished svg))%list.
Proof.
  intros self wk svg self'.
  assert (H1 : VTracerGUI.conversion_worker self = Some wk)
    by (vm_compute; reflexivity).
  assert (H2 : files cat_world !! ConversionWorker.image_path wk
               = Some "raw image bytes") by (vm_compute; reflexivity).
  assert (H3 : toy_library "raw image bytes"
                 (img_format (ConversionWorker.image_path wk))
                 (ConversionWorker.params wk) = Return svg)
    by (vm_compute; reflexivity).
  split; [exact H1|]. split; [exact H2|]. split; [exact H3|].
  exact (successful_conversion_outcome toy_library cat_world self wk
           "raw image bytes" svg H1 H2 H3).
Defined.

(** X10: a conversion that ends with an error shows that error, and only
    that: one critical box titled Error whose text is the message of the
    signal, with the preview left as it was. *)
Theorem failed_conversion_reports_once
    (lib : string -> string -> Params.t -> result string)
    (w : World) (self : VTracerGUI.t) (wk : ConversionWorker.t)
    (msg : string) :
  VTracerGUI.conversion_worker self = Some wk ->
  List.filter is_terminal (ConversionWorker.run lib w wk) = [error msg] ->
  let self' := VTracerGUI.run_worker lib w self in
  VTracerGUI.message_boxes self'
  = (VTracerGUI.message_boxes self ++ box_of (error msg))%list /\
  VTracerGUI.svg_widget self' = VTracerGUI.svg_widget self /\
  VTracerGUI.current_image_path self' = VTracerGUI.current_image_path self.
Proof.
  intros Hwk Herr self'. subst self'.
  unfold VTracerGUI.run_worker. rewrite Hwk.
  destruct (run_cases lib w wk) as
    [[_ E]|[(b & e & _ & _ & E)|(b & svg & _ & _ & E)]];
    rewrite E in Herr |- *; cbn in Herr; try discriminate;
    injection Herr as <-; cbn; split_conj; reflexivity.
Qed.

Lemma failed_conversion_reports_once_witness :
  let w := empty_world (String LF "") in
  let self := after_success_then_retry in
  let wk := {| ConversionWorker.image_path := "/no/such/file.png";
               ConversionWorker.params := default_params |} in
  let msg := ConversionWorker.error_prefix ++
             exn_str (oserror w "/no/such/file.png") in
  let self' := VTracerGUI.run_worker toy_library w self in
  VTracerGUI.conversion_worker self = Some wk /\
  List.filter is_terminal (ConversionWorker.run toy_library w wk)
    = [error msg] /\
  VTracerGUI.message_boxes self'
  = (VTracerGUI.message_boxes self ++ box_of (error msg))%list /\
  VTracerGUI.svg_widget self' = VTracerGUI.svg_widget self /\
  VTracerGUI.current_image_path self' = VTracerGUI.current_image_path self.
Proof.
  intros w self wk msg self'.
  assert (Hwk : VTracerGUI.conversion_worker self = Some wk)
    by (vm_compute; reflexivity).
  assert (Herr : List.filter is_terminal
                   (ConversionWorker.run toy_library w wk) = [error msg])
    by (vm_compute; reflexivity).
  split; [exact Hwk|]. split; [exact Herr|].
  exact (failed_conversion_reports_once toy_library w self wk msg Hwk Herr).
Defined.

(* --------------------------------------------------------------------- *)
(* save_svg                                                              *)
(* --------------------------------------------------------------------- *)

(** X11: what a save writes.  With a result that is not empty, a chosen
    path that is not empty and a file that can be opened, the file holds
    afterwards the result with os.linesep in place of every line feed,
    whatever it held before, and the success notice is the one box added. *)
Theorem saved_file_content
    (getSaveFileName : string -> string)
    (w : World) (self : VTracerGUI.t) (svg file_path : string) :
  VTracerGUI.current_svg_content self = Some svg ->
  svg <> "" ->
  (forall proposed, getSaveFileName proposed = file_path) ->
  file_path <> "" ->
  can_write w file_path = true ->
  read_back (fst (VTracerGUI.save_svg getSaveFileName w self)) file_path
  = Some (Str.replace LF (linesep w) svg) /\
  VTracerGUI.message_boxes (snd (VTracerGUI.save_svg getSaveFileName w self))
  = (VTracerGUI.message_boxes self ++
     [{| VTracerGUI.kind := VTracerGUI.information;
         VTracerGUI.title := "Success";
         VTracerGUI.text :=
           "SVG file saved successfully:" ++ String LF file_path |}])%list.
Proof.
  intros Hsvg Hne Hdlg Hpath Hcan.
  unfold VTracerGUI.save_svg. rewrite Hsvg, Hdlg.
  destruct svg as [|c svg]; [congruence|].
  cbn [Str.truthy negb default].
  destruct file_path as [|d file_path]; [congruence|].
  unfold open_w_write. rewrite Hcan. cbn [fst snd].
  split; [|reflexivity].
  unfold read_back. cbn [files]. apply lookup_insert_eq.
Qed.

Lemma saved_file_content_witness :
  let w := {| files := {["out.svg" := "old content"]};
              oserror := oserror cat_world;
              can_write := fun _ => true;
              linesep := String CR (String LF "") |} in
  let svg := "<svg>" ++ String LF "</svg>" in
  let self := VTracerGUI.on_conversion_finished svg VTracerGUI.init in
  VTracerGUI.current_svg_content self = Some svg /\
  svg <> "" /\
  (forall proposed : string, (fun _ : string => "out.svg") proposed = "out.svg") /\
  "out.svg" <> "" /\
  can_write w "out.svg" = true /\
  read_back (fst (VTracerGUI.save_svg (fun _ => "out.svg") w self)) "out.svg"
  = Some ("<svg>" ++ String CR (String LF "</svg>")).
Proof.
  intros w svg self.
  assert (H1 : VTracerGUI.current_svg_content self = Some svg) by reflexivity.
  assert (H2 : svg <> "") by (vm_compute; discriminate).
  assert (H3 : forall proposed : string,
             (fun _ : string => "out.svg") proposed = "out.svg")
    by (intros; reflexivity).
  assert (H4 : "out.svg" <> "") by discriminate.
  assert (H5 : can_write w "out.svg" = true) by reflexivity.
  split_conj; try assumption.
  exact (proj1 (saved_file_content (fun _ => "out.svg") w self svg "out.svg"
                  H1 H2 H3 H4 H5)).
Defined.

(** X12: a save that cannot open its file changes no file and keeps the
    result in memory; the window only gains one critical box with the
    text of the error. *)
Theorem save_failure_keeps_everything
    (getSaveFileName : string -> string)
    (w : World) (self : VTracerGUI.t) (svg file_path : string) :
  VTracerGUI.current_svg_content self = Some svg ->
  svg <> "" ->
  (forall proposed, getSaveFileName proposed = file_path) ->
  file_path <> "" ->
  can_write w file_path = false ->
  VTracerGUI.save_svg getSaveFileName w self
  = (w, VTracerGUI.show_box VTracerGUI.critical "Error"
          ("Failed to save file:" ++ String LF (exn_str (oserror w file_path)))
          self) /\
  VTracerGUI.current_svg_content
    (snd (VTracerGUI.save_svg getSaveFileName w self)) = Some svg.
Proof.
  intros Hsvg Hne Hdlg Hpath Hcan.
  unfold VTracerGUI.save_svg. rewrite Hsvg, Hdlg.
  destruct svg as [|c svg]; [congruence|].
  cbn [Str.truthy negb default].
  destruct file_path as [|d file_path]; [congruence|].
  unfold open_w_write. rewrite Hcan. cbn [snd].
  split; [reflexivity | exact Hsvg].
Qed.

Lemma save_failure_keeps_everything_witness :
  let self := VTracerGUI.on_conversion_finished "<svg/>" VTracerGUI.init in
  let dlg := fun _ : string => "/readonly/out.svg" in
  VTracerGUI.current_svg_content self = Some "<svg/>" /\
  "<svg/>" <> "" /\
  (forall proposed : string, dlg proposed = "/readonly/out.svg") /\
  "/readonly/out.svg" <> "" /\
  can_write cat_world "/readonly/out.svg" = false /\
  fst (VTracerGUI.save_svg dlg cat_world self) = cat_world /\
  VTracerGUI.current_svg_content (snd (VTracerGUI.save_svg dlg cat_world self))
  = Some "<svg/>".
Proof.
  intros self dlg.
  assert (H1 : VTracerGUI.current_svg_content self = Some "<svg/>")
    by reflexivity.
  assert (H2 : "<svg/>" <> "") by discriminate.
  assert (H3 : forall proposed : string, dlg proposed = "/readonly/out.svg")
    by (intros; reflexivity).
  assert (H4 : "/readonly/out.svg" <> "") by discriminate.
  assert (H5 : can_write cat_world "/readonly/out.svg" = false)
    by reflexivity.
  split; [exact H1|]. split; [exact H2|]. split; [exact H3|].
  split; [exact H4|]. split; [exact H5|].
  destruct (save_failure_keeps_everything dlg cat_world self
              "<svg/>" "/readonly/out.svg" H1 H2 H3 H4 H5) as [E1 E2].
  split; [rewrite E1; reflexivity | exact E2].
Defined.

(** X13: a cancelled dialog (empty answer) ends the save: no file and no
    part of the window changes, whatever result is held. *)
Theorem save_cancelled_is_noop
    (getSaveFileName : string -> string)
    (w : World) (self : VTracerGUI.t) :
  (forall proposed, getSaveFileName proposed = "") ->
  VTracerGUI.save_svg getSaveFileName w self = (w, self).
Proof.
  intros Hdlg. unfold VTracerGUI.save_svg. rewrite Hdlg.
  destruct (negb (Str.truthy (VTracerGUI.current_svg_content self)));
    reflexivity.
Qed.

Lemma save_cancelled_is_noop_witness :
  let self := VTracerGUI.on_conversion_finished "<svg/>" VTracerGUI.init in
  (forall proposed : string, (fun _ : string => "") proposed = "") /\
  VTracerGUI.save_svg (fun _ => "") cat_world self = (cat_world, self).
Proof.
  intros self.
  assert (H : forall proposed : string, (fun _ : string => "") proposed = "")
    by (intros; reflexivity).
  split; [exact H|].
  exact (save_cancelled_is_noop (fun _ => "") cat_world self H).
Defined.

(** X14: a save touches no file but the chosen one: a path that the
    dialog does not answer reads the same before and after. *)
Theorem save_touches_only_chosen_file
    (getSaveFileName : string -> string)
    (w : World) (self : VTracerGUI.t) (other : string) :
  (forall proposed, getSaveFileName proposed <> other) ->
  read_back (fst (VTracerGUI.save_svg getSaveFileName w self)) other
  = read_back w other.
Proof.
  intros Hother. unfold VTracerGUI.save_svg.
  destruct (negb (Str.truthy (VTracerGUI.current_svg_content self)));
    [reflexivity|].
  set (name := if Str.truthy (VTracerGUI.current_image_path self)
               then _ else _).
  specialize (Hother name).
  destruct (getSaveFileName name) as [|c file_path] eqn:E; [reflexivity|].
  unfold open_w_write.
  destruct (can_write w (String c file_path)); [|reflexivity].
  cbn [fst]. unfold read_back. cbn [files].
  apply lookup_insert_ne. exact Hother.
Qed.

Lemma save_touches_only_chosen_file_witness :
  let self := VTracerGUI.on_conversion_finished "<svg/>" VTracerGUI.init in
  (forall proposed : string,
     (fun _ : string => "out.svg") proposed <> "/tmp/cat.png") /\
  read_back (fst (VTracerGUI.save_svg (fun _ => "out.svg") cat_world self))
    "/tmp/cat.png"
  = Some "raw image bytes".
Proof.
  intros self.
  assert (H : forall proposed : string,
            (fun _ : string => "out.svg") proposed <> "/tmp/cat.png")
    by (intros; discriminate).
  split; [exact H|].
  rewrite (save_touches_only_chosen_file (fun _ => "out.svg") cat_world self
             "/tmp/cat.png" H).
  vm_compute. reflexivity.
Defined.

Lemma save_svg_window
    (getSaveFileName : string -> string)
    (w : World) (self : VTracerGUI.t) :
  let self' := snd (VTracerGUI.save_svg getSaveFileName w self) in
  VTracerGUI.current_svg_content self' = VTracerGUI.current_svg_content self /\
  VTracerGUI.current_image_path self' = VTracerGUI.current_image_path self /\
  VTracerGUI.conversion_worker self' = VTracerGUI.conversion_worker self /\
  VTracerGUI.param_controls self' = VTracerGUI.param_controls self /\
  VTracerGUI.svg_widget self' = VTracerGUI.svg_widget self /\
  VTracerGUI.convert_button_enabled self'
  = VTracerGUI.convert_button_enabled self /\
  VTracerGUI.save_button_enabled self' = VTracerGUI.save_button_enabled self /\
  VTracerGUI.progress_bar_visible self' = VTracerGUI.progress_bar_visible self /\
  VTracerGUI.progress_bar_value self' = VTracerGUI.progress_bar_value self.
Proof.
  intros self'. subst self'. unfold VTracerGUI.save_svg.
  destruct (negb (Str.truthy (VTracerGUI.current_svg_content self)));
    [cbn; split_conj; reflexivity|].
  destruct (getSaveFileName _) as [|c file_path];
    [cbn; split_conj; reflexivity|].
  destruct (open_w_write w (String c file_path) _);
    cbn; split_conj; reflexivity.
Qed.

(** X15: a save changes nothing of the window but the list of boxes
    shown: the result, the image path, the worker, the panel, the preview
    and the state of the buttons and of the progress bar stay. *)
Theorem save_keeps_window
    (getSaveFileName : string -> string)
    (w : World) (self : VTracerGUI.t) :
  let self' := snd (VTracerGUI.save_svg getSaveFileName w self) in
  VTracerGUI.current_svg_content self' = VTracerGUI.current_svg_content self /\
  VTracerGUI.current_image_path self' = VTracerGUI.current_image_path self /\
  VTracerGUI.conversion_worker self' = VTracerGUI.conversion_worker self /\
  VTracerGUI.param_controls self' = VTracerGUI.param_controls self /\
  VTracerGUI.svg_widget self' = VTracerGUI.svg_widget self /\
  VTracerGUI.convert_button_enabled self'
  = VTracerGUI.convert_button_enabled self /\
  VTracerGUI.save_button_enabled self' = VTracerGUI.save_button_enabled self /\
  VTracerGUI.progress_bar_visible self' = VTracerGUI.progress_bar_visible self /\
  VTracerGUI.progress_bar_value self' = VTracerGUI.progress_bar_value self.
Proof.
  intros self'. subst self'. unfold VTracerGUI.save_svg.
  destruct (negb (Str.truthy (VTracerGUI.current_svg_content self)));
    [cbn; split_conj; reflexivity|].
  destruct (getSaveFileName _) as [|c file_path];
    [cbn; split_conj; reflexivity|].
  destruct (open_w_write w (String c file_path) _);
    cbn; split_conj; reflexivity.
Qed.

(* --------------------------------------------------------------------- *)
(* The name proposed by save_svg                                         *)
(* --------------------------------------------------------------------- *)

Lemma take_drop (n : nat) (s : string) : Str.take n s ++ Str.drop n s = s.
Proof.
  revert s. induction n as [|n IH]; intros [|c s]; try reflexivity.
  change (String c (Str.take n s ++ Str.drop n s) = String c s).
  rewrite IH. reflexivity.
Qed.

Lemma append_empty_r (s : string) : s ++ "" = s.
Proof.
  induction s as [|c s IH]; [reflexivity|].
  change (String c (s ++ "") = String c s). rewrite IH. reflexivity.
Qed.

Lemma stem_suffix (p : string) :
  Path.stem p ++ Path.suffix p = Path.name p.
Proof.
  unfold Path.stem, Path.suffix.
  destruct ((0 <? Str.rfind "." (Path.name p)) &&
            (Str.rfind "." (Path.name p) <? Str.len (Path.name p) - 1)).
  - apply take_drop.
  - apply append_empty_r.
Qed.

Lemma rfind_lower_bound c s : -1 <= Str.rfind c s.
Proof.
  induction s as [|a s IH]; simpl; [lia|].
  destruct (0 <=? Str.rfind c s) eqn:E; [apply Z.leb_le in E; lia|].
  destruct (Ascii.eqb a c); lia.
Qed.

(** rfind gives -1 exactly on the texts without the character. *)
Lemma rfind_absent c s :
  Str.rfind c s = -1 <-> ~ In c (String.list_ascii_of_string s).
Proof.
  induction s as [|a s IH]; simpl; [tauto|].
  pose proof (rfind_lower_bound c s) as Hlb.
  destruct (0 <=? Str.rfind c s) eqn:E.
  - apply Z.leb_le in E. split; [lia|].
    intros Hno. exfalso. apply Hno. right.
    destruct (in_dec ascii_dec c (String.list_ascii_of_string s)) as [Hin|Hout];
      [exact Hin|]. apply IH in Hout. lia.
  - apply Z.leb_gt in E. assert (Hr : Str.rfind c s = -1) by lia.
    apply IH in Hr.
    destruct (Ascii.eqb a c) eqn:Eac.
    + apply Ascii.eqb_eq in Eac. split; [lia|]. intros Hno. tauto.
    + apply Ascii.eqb_neq in Eac. split; [|reflexivity].
      intros _ [H|H]; [congruence | tauto].
Qed.

Lemma split_pieces_lack_sep sep s x :
  In x (Str.split sep s) -> ~ In sep (String.list_ascii_of_string x).
Proof.
  revert x. induction s as [|c s IH]; intros x; simpl.
  - intros [<-|[]]. simpl. tauto.
  - destruct (Ascii.eqb c sep) eqn:E.
    + intros [<-|Hin]; [simpl; tauto | apply IH, Hin].
    + apply Ascii.eqb_neq in E.
      destruct (Str.split sep s) as [|y ys] eqn:Es.
      * intros [<-|[]]. simpl. intros [H|[]]. congruence.
      * intros [<-|Hin].
        -- simpl. intros [H|H]; [congruence|].
           apply (IH y); [left; reflexivity | exact H].
        -- apply IH. right. exact Hin.
Qed.

Lemma last_default_or_in {A} (l : list A) (d : A) :
  List.last l d = d \/ In (List.last l d) l.
Proof.
  induction l as [|x l IH]; [left; reflexivity|].
  destruct l as [|y l]; [right; left; reflexivity|].
  destruct IH as [E|Hin].
  - left. exact E.
  - right. right. exact Hin.
Qed.

Lemma name_lacks_slash (p : string) :
  ~ In "/"%char (String.list_ascii_of_string (Path.name p)).
Proof.
  unfold Path.name.
  destruct (last_default_or_in (Path.tail p) "") as [E|Hin].
  - rewrite E. simpl. tauto.
  - apply list_elem_of_In in Hin. unfold Path.tail in Hin.
    apply list_elem_of_filter in Hin as [_ Hin].
    apply list_elem_of_In in Hin.
    exact (split_pieces_lack_sep _ _ _ Hin).
Qed.

Lemma list_ascii_app (a b : string) :
  String.list_ascii_of_string (a ++ b)
  = (String.list_ascii_of_string a ++ String.list_ascii_of_string b)%list.
Proof.
  induction a as [|c a IH]; [reflexivity|].
  change (c :: String.list_ascii_of_string (a ++ b)
          = c :: (String.list_ascii_of_string a ++ String.list_ascii_of_string b)%list).
  rewrite IH. reflexivity.
Qed.

(** X16: with an image loaded, the name that save_svg proposes in the
    dialog is the stem of the image path followed by .svg, where the stem
    is the file name of the image without its suffix; the proposal holds
    no directory separator, so it names a file and not a path. *)
Theorem proposed_save_name
    (getSaveFileName : string -> string)
    (w : World) (self : VTracerGUI.t) (image_path : string) :
  VTracerGUI.current_image_path self = Some image_path ->
  image_path <> "" ->
  VTracerGUI.save_svg getSaveFileName w self
  = VTracerGUI.save_svg
      (fun _ => getSaveFileName (Path.stem image_path ++ ".svg")) w self /\
  Path.stem image_path ++ Path.suffix image_path = Path.name image_path /\
  Str.rfind "/" (Path.stem image_path ++ ".svg") = -1.
Proof.
  intros Hpath Hne. split; [|split].
  - unfold VTracerGUI.save_svg. rewrite Hpath.
    destruct image_path as [|c s]; [congruence|]. reflexivity.
  - apply stem_suffix.
  - apply rfind_absent. rewrite list_ascii_app. intros Hin.
    apply in_app_or in Hin as [Hin|Hin].
    + apply (name_lacks_slash image_path).
      rewrite <- stem_suffix, list_ascii_app. apply in_or_app. left.
      exact Hin.
    + simpl in Hin. repeat (destruct Hin as [Hin|Hin]; [discriminate|]).
      exact Hin.
Qed.

Lemma proposed_save_name_witness :
  let self := VTracerGUI.on_conversion_finished "<svg/>"
                (VTracerGUI.load_image "/home/u/pic.old/shot.PNG"
                   VTracerGUI.init) in
  VTracerGUI.current_image_path self = Some "/home/u/pic.old/shot.PNG" /\
  "/home/u/pic.old/shot.PNG" <> "" /\
  Path.stem "/home/u/pic.old/shot.PNG" ++ ".svg" = "shot.svg" /\
  VTracerGUI.save_svg (fun name => "/tmp/" ++ name) cat_world self
  = VTracerGUI.save_svg
      (fun _ => "/tmp/" ++ (Path.stem "/home/u/pic.old/shot.PNG" ++ ".svg"))
      cat_world self.
Proof.
  intros self.
  assert (H1 : VTracerGUI.current_image_path self
               = Some "/home/u/pic.old/shot.PNG") by reflexivity.
  assert (H2 : "/home/u/pic.old/shot.PNG" <> "") by discriminate.
  split; [exact H1|]. split; [exact H2|]. split; [reflexivity|].
  exact (proj1 (proposed_save_name (fun name => "/tmp/" ++ name) cat_world
                  self "/home/u/pic.old/shot.PNG" H1 H2)).
Defined.

(* --------------------------------------------------------------------- *)
(* The window after any list of events                                   *)
(* --------------------------------------------------------------------- *)

(** window_ok looks at seven attributes only. *)
Lemma window_ok_same (g g' : VTracerGUI.t) :
  VTracerGUI.param_controls g' = VTracerGUI.param_controls g ->
  VTracerGUI.current_image_path g' = VTracerGUI.current_image_path g ->
  VTracerGUI.current_svg_content g' = VTracerGUI.current_svg_content g ->
  VTracerGUI.conversion_worker g' = VTracerGUI.conversion_worker g ->
  VTracerGUI.convert_button_enabled g' = VTracerGUI.convert_button_enabled g ->
  VTracerGUI.save_button_enabled g' = VTracerGUI.save_button_enabled g ->
  VTracerGUI.progress_bar_visible g' = VTracerGUI.progress_bar_visible g ->
  window_ok g -> window_ok g'.
Proof.
  unfold window_ok. intros -> -> -> -> -> -> ->. tauto.
Qed.

Lemma init_ok : window_ok VTracerGUI.init.
Proof.
  unfold window_ok. cbn. split_conj; try discriminate.
  - exact init_ui_ok.
  - split; [discriminate | intros [x Hx]; discriminate].
  - intros [x Hx]. discriminate.
Qed.

Lemma load_image_ok p g :
  ImageDropWidget.is_image_file p = true ->
  window_ok g -> window_ok (VTracerGUI.load_image p g).
Proof.
  unfold window_ok. cbn.
  intros Hp (H1 & H2 & H3 & H4 & H5 & H6 & H7). split_conj; eauto.
  intros q Hq. injection Hq as <-. exact Hp.
Qed.

Lemma image_dropped_ok o g :
  (forall p, o = Some p -> ImageDropWidget.is_image_file p = true) ->
  window_ok g -> window_ok (Session.image_dropped o g).
Proof.
  intros Ho Hg. destruct o as [p|]; simpl; [|exact Hg].
  apply load_image_ok; [apply Ho; reflexivity | exact Hg].
Qed.

Lemma with_panel_ok a g :
  window_ok g ->
  window_ok
    (Session.with_panel
       (ParameterControlWidget.act (VTracerGUI.param_controls g) a) g).
Proof.
  unfold window_ok. cbn.
  intros (H1 & H2). split; [apply act_ok, H1 | exact H2].
Qed.

(** On a window in order convert_image raises nothing, and with an image
    loaded it builds the worker from the current path and the current
    dictionary of the panel. *)
Lemma convert_image_runs g :
  window_ok g ->
  (VTracerGUI.current_image_path g = None /\
   VTracerGUI.convert_image g = (g, None)) \/
  (exists p s,
     VTracerGUI.current_image_path g = Some p /\
     ImageDropWidget.is_image_file p = true /\
     ParameterControlWidget.get_parameters (VTracerGUI.param_controls g)
       = Return s /\
     params_ok s /\
     VTracerGUI.convert_image g
     = (VTracerGUI.set_worker
          {| ConversionWorker.image_path := p; ConversionWorker.params := s |}
          (VTracerGUI.enter_conversion g), None)).
Proof.
  intros (H1 & H2 & _).
  destruct (VTracerGUI.current_image_path g) as [p|] eqn:Hp.
  - right. pose proof (H2 p eq_refl) as Himg.
    destruct (get_parameters_ok _ H1) as (s & Hs & Hok).
    exists p, s. split_conj; try assumption; try reflexivity.
    unfold VTracerGUI.convert_image. rewrite Hp.
    rewrite (is_image_file_truthy p Himg). cbn [negb].
    change (VTracerGUI.param_controls (VTracerGUI.enter_conversion g))
      with (VTracerGUI.param_controls g).
    rewrite Hs.
    change (VTracerGUI.current_image_path (VTracerGUI.enter_conversion g))
      with (VTracerGUI.current_image_path g).
    rewrite Hp. reflexivity.
  - left. split; [reflexivity|].
    unfold VTracerGUI.convert_image. rewrite Hp. reflexivity.
Qed.

Lemma convert_image_ok g :
  window_ok g -> window_ok (fst (VTracerGUI.convert_image g)).
Proof.
  intros Hg.
  destruct (convert_image_runs g Hg) as [[_ E]|(p & s & Hp & Himg & _ & Hs & E)];
    rewrite E; [exact Hg|].
  destruct Hg as (H1 & H2 & H3 & H4 & H5 & H6 & H7).
  unfold window_ok. cbn. split_conj; eauto; try discriminate.
  intros wk Hwk. injection Hwk as <-. cbn. split; assumption.
Qed.

Lemma deliver_ok g s :
  is_Some (VTracerGUI.conversion_worker g) ->
  window_ok g -> window_ok (VTracerGUI.deliver g s).
Proof.
  intros Hwk (H1 & H2 & H3 & H4 & H5 & H6 & H7).
  destruct s as [svg|msg|n]; unfold window_ok; cbn;
    split_conj; eauto; try discriminate; try exact H4;
    try (split; eauto).
Qed.

Lemma save_svg_ok dlg w g :
  window_ok g -> window_ok (snd (VTracerGUI.save_svg dlg w g)).
Proof.
  destruct (save_svg_window dlg w g)
    as (E1 & E2 & E3 & E4 & _ & E6 & E7 & E8 & _).
  apply window_ok_same; assumption.
Qed.

Lemma step_ok st e : window_ok (snd st) -> window_ok (snd (Session.step st e)).
Proof.
  intros Hg. destruct e; simpl.
  - apply image_dropped_ok; [apply dropEvent_image | exact Hg].
  - apply image_dropped_ok; [apply mousePressEvent_image | exact Hg].
  - apply with_panel_ok, Hg.
  - destruct (VTracerGUI.convert_button_enabled (snd st)); [|exact Hg].
    apply convert_image_ok, Hg.
  - destruct (VTracerGUI.conversion_worker (snd st)) eqn:E; [|exact Hg].
    apply deliver_ok; [rewrite E; eauto | exact Hg].
  - destruct (VTracerGUI.save_button_enabled (snd st)); [|exact Hg].
    apply save_svg_ok, Hg.
Qed.

Lemma play_ok w events : window_ok (snd (Session.play w events)).
Proof.
  unfold Session.play.
  assert (H : forall st, window_ok (snd st) ->
                         window_ok (snd (fold_left Session.step events st))).
  { induction events as [|e events IH]; intros st Hst; simpl;
      [exact Hst | apply IH, step_ok, Hst]. }
  apply H. exact init_ok.
Qed.

Example example_session_outcome :
  let st := Session.play cat_world example_events in
  read_back (fst st) "/tmp/cat.svg" = Some "<svg/>" /\
  VTracerGUI.current_image_path (snd st) = Some "/tmp/cat.png" /\
  VTracerGUI.convert_button_enabled (snd st) = true /\
  VTracerGUI.save_button_enabled (snd st) = true /\
  length (VTracerGUI.message_boxes (snd st)) = 2%nat.
Proof. vm_compute. split_conj; reflexivity. Qed.

(** X17: the image path held by the window, after any events, was
    accepted by is_image_file; in particular it is not empty, so the
    guard of convert_image never stops a window that holds a path. *)
Theorem loaded_path_is_an_image
    (w : World) (events : list Session.event) (p : string) :
  VTracerGUI.current_image_path (snd (Session.play w events)) = Some p ->
  ImageDropWidget.is_image_file p = true /\ Str.truthy (Some p) = true.
Proof.
  intros Hp. destruct (play_ok w events) as (_ & H2 & _).
  pose proof (H2 p Hp) as Himg.
  split; [exact Himg | exact (is_image_file_truthy p Himg)].
Qed.

Lemma loaded_path_is_an_image_witness :
  VTracerGUI.current_image_path (snd (Session.play cat_world example_events))
  = Some "/tmp/cat.png" /\
  ImageDropWidget.is_image_file "/tmp/cat.png" = true /\
  Str.truthy (Some "/tmp/cat.png") = true.
Proof.
  assert (H : VTracerGUI.current_image_path
                (snd (Session.play cat_world example_events))
              = Some "/tmp/cat.png") by (vm_compute; reflexivity).
  split; [exact H|].
  exact (loaded_path_is_an_image cat_world example_events "/tmp/cat.png" H).
Defined.

(** X18: every worker that the window creates, after any events, has an
    image path whose lower-cased suffix is a key of img_format_map (the
    default tag of an unknown suffix is never used for it) and a
    dictionary within the bounds and names of the panel. *)
Theorem started_worker_is_well_formed
    (w : World) (events : list Session.event) (wk : ConversionWorker.t) :
  VTracerGUI.conversion_worker (snd (Session.play w events)) = Some wk ->
  is_Some (img_format_map !! file_extension (ConversionWorker.image_path wk)) /\
  params_ok (ConversionWorker.params wk).
Proof.
  intros Hwk. destruct (play_ok w events) as (_ & _ & _ & _ & H5 & _).
  destruct (H5 wk Hwk) as [Himg Hpar].
  split; [apply is_image_file_lookup, Himg | exact Hpar].
Qed.

Lemma started_worker_is_well_formed_witness :
  let wk := {| ConversionWorker.image_path := "/tmp/cat.png";
               ConversionWorker.params :=
                 {| Params.colormode := "color";
                    Params.hierarchical := "stacked";
                    Params.mode := "spline";
                    Params.filter_speckle := 4;
                    Params.color_precision := 6;
                    Params.layer_difference := 16;
                    Params.corner_threshold := 180;
                    Params.length_threshold := 4%float;
                    Params.max_iterations := 10;
                    Params.splice_threshold := 45 |} |} in
  VTracerGUI.conversion_worker (snd (Session.play cat_world example_events))
  = Some wk /\
  is_Some (img_format_map !! file_extension (ConversionWorker.image_path wk)) /\
  params_ok (ConversionWorker.params wk).
Proof.
  intros wk.
  assert (H : VTracerGUI.conversion_worker
                (snd (Session.play cat_world example_events)) = Some wk)
    by (vm_compute; reflexivity).
  split; [exact H|].
  exact (started_worker_is_well_formed cat_world example_events wk H).
Defined.

(** X19: after any events the save button is enabled exactly when the
    window holds a conversion result. *)
Theorem save_button_iff_result_held
    (w : World) (events : list Session.event) :
  VTracerGUI.save_button_enabled (snd (Session.play w events)) = true <->
  is_Some (VTracerGUI.current_svg_content (snd (Session.play w events))).
Proof.
  destruct (play_ok w events) as (_ & _ & _ & H4 & _). exact H4.
Qed.

(** X20: after any events, a click on the convert button, when it is
    enabled, starts a worker: an image path is held, get_parameters
    returns, and convert_image hands both to a new worker, disables the
    button, shows the progress bar at 0 and raises nothing. *)
Theorem convert_click_starts_worker
    (w : World) (events : list Session.event) :
  let g := snd (Session.play w events) in
  VTracerGUI.convert_button_enabled g = true ->
  exists p s,
    VTracerGUI.current_image_path g = Some p /\
    ParameterControlWidget.get_parameters (VTracerGUI.param_controls g)
      = Return s /\
    VTracerGUI.convert_image g
    = (VTracerGUI.set_worker
         {| ConversionWorker.image_path := p; ConversionWorker.params := s |}
         (VTracerGUI.enter_conversion g), None) /\
    VTracerGUI.convert_button_enabled (fst (VTracerGUI.convert_image g))
      = false /\
    VTracerGUI.progress_bar_visible (fst (VTracerGUI.convert_image g)) = true /\
    VTracerGUI.progress_bar_value (fst (VTracerGUI.convert_image g)) = 0.
Proof.
  intros g Hen. pose proof (play_ok w events) as Hok. fold g in Hok.
  destruct (convert_image_runs g Hok)
    as [[Hnone _]|(p & s & Hp & _ & Hs & _ & E)].
  - destruct Hok as (_ & _ & H3 & _). destruct (H3 Hen) as [p Hp]. congruence.
  - exists p, s. rewrite E. cbn. split_conj; try assumption; reflexivity.
Qed.

Lemma convert_click_starts_worker_witness :
  let g := snd (Session.play cat_world example_events_loaded) in
  VTracerGUI.convert_button_enabled g = true /\
  exists p s,
    VTracerGUI.current_image_path g = Some p /\
    ParameterControlWidget.get_parameters (VTracerGUI.param_controls g)
      = Return s /\
    VTracerGUI.convert_image g
    = (VTracerGUI.set_worker
         {| ConversionWorker.image_path := p; ConversionWorker.params := s |}
         (VTracerGUI.enter_conversion g), None) /\
    VTracerGUI.convert_button_enabled (fst (VTracerGUI.convert_image g))
      = false /\
    VTracerGUI.progress_bar_visible (fst (VTracerGUI.convert_image g)) = true /\
    VTracerGUI.progress_bar_value (fst (VTracerGUI.convert_image g)) = 0.
Proof.
  intros g.
  assert (H : VTracerGUI.convert_button_enabled g = true)
    by (vm_compute; reflexivity).
  split; [exact H|].
  exact (convert_click_starts_worker cat_world example_events_loaded H).
Defined.

(** X21: after any events convert_image raises nothing: the lookup of
    the curve mode always finds its key. *)
Theorem convert_image_never_raises
    (w : World) (events : list Session.event) :
  snd (VTracerGUI.convert_image (snd (Session.play w events))) = None.
Proof.
  destruct (convert_image_runs _ (play_ok w events))
    as [[_ E]|(p & s & _ & _ & _ & _ & E)]; rewrite E; reflexivity.
Qed.

(** X22: the stored result changes on the arrival of a finished signal
    and on nothing else: loading another image, moving the panel,
    starting a conversion, a progress or error signal and a save all
    leave current_svg_content as it is. *)
Theorem result_changes_only_on_finished
    (st : World * VTracerGUI.t) (e : Session.event) :
  (forall svg, e <> Session.arrive (finished svg)) ->
  VTracerGUI.current_svg_content (snd (Session.step st e))
  = VTracerGUI.current_svg_content (snd st).
Proof.
  intros Hne. destruct e as [urls|button answer|a| |s|dlg]; simpl.
  - destruct (ImageDropWidget.dropEvent urls); reflexivity.
  - destruct (ImageDropWidget.mousePressEvent button answer); reflexivity.
  - reflexivity.
  - destruct (VTracerGUI.convert_button_enabled (snd st)); [|reflexivity].
    unfold VTracerGUI.convert_image.
    destruct (negb (Str.truthy (VTracerGUI.current_image_path (snd st))));
      [reflexivity|].
    destruct (ParameterControlWidget.get_parameters _); reflexivity.
  - destruct (VTracerGUI.conversion_worker (snd st)); [|reflexivity].
    destruct s as [svg|msg|n]; [|reflexivity|reflexivity].
    exfalso. exact (Hne svg eq_refl).
  - destruct (VTracerGUI.save_button_enabled (snd st)); [|reflexivity].
    exact (proj1 (save_svg_window dlg (fst st) (snd st))).
Qed.

Lemma result_changes_only_on_finished_witness :
  let st := Session.play cat_world example_events in
  let e := Session.drop ["/tmp/dog.gif"] in
  (forall svg, e <> Session.arrive (finished svg)) /\
  VTracerGUI.current_image_path (snd (Session.step st e))
  = Some "/tmp/dog.gif" /\
  VTracerGUI.current_svg_content (snd (Session.step st e)) = Some "<svg/>".
Proof.
  intros st e.
  assert (H : forall svg, e <> Session.arrive (finished svg))
    by (intros svg; discriminate).
  split; [exact H|]. split; [vm_compute; reflexivity|].
  rewrite (result_changes_only_on_finished st e H).
  vm_compute. reflexivity.
Defined.

(** X23: a second click on the convert button right after the first does
    nothing: the first click disables the button, so at most one worker
    is started by the two. *)
Theorem double_click_starts_one_worker (st : World * VTracerGUI.t) :
  Session.step (Session.step st Session.click_convert) Session.click_convert
  = Session.step st Session.click_convert.
Proof.
  destruct st as [w g]. simpl.
  destruct (VTracerGUI.convert_button_enabled g) eqn:Hen; simpl;
    [|rewrite Hen; reflexivity].
  unfold VTracerGUI.convert_image.
  destruct (negb (Str.truthy (VTracerGUI.current_image_path g))) eqn:Ht.
  - simpl. rewrite Hen. unfold VTracerGUI.convert_image. rewrite Ht.
    reflexivity.
  - destruct (ParameterControlWidget.get_parameters _); reflexivity.
Qed.

(** X24: the convert button does not stay disabled for the whole
    conversion.  After any events that leave it enabled, a click starts
    a worker and disables the button; a drop of another image enables it
    again although no signal of that worker has arrived and the progress
    bar is still shown; a second click then starts a second worker, for
    the new image. *)
Theorem load_during_conversion_allows_second_worker
    (w : World) (events : list Session.event)
    (urls : list string) (p : string) :
  let st := Session.play w events in
  let st1 := Session.step st Session.click_convert in
  let st2 := Session.step st1 (Session.drop urls) in
  let st3 := Session.step st2 Session.click_convert in
  VTracerGUI.convert_button_enabled (snd st) = true ->
  ImageDropWidget.dropEvent urls = Some p ->
  is_Some (VTracerGUI.conversion_worker (snd st1)) /\
  VTracerGUI.convert_button_enabled (snd st1) = false /\
  VTracerGUI.convert_button_enabled (snd st2) = true /\
  VTracerGUI.progress_bar_visible (snd st2) = true /\
  exists s,
    VTracerGUI.conversion_worker (snd st3)
    = Some {| ConversionWorker.image_path := p;
              ConversionWorker.params := s |}.
Proof.
  intros st st1 st2 st3 Hen Hdrop.
  pose proof (play_ok w events) as Hok. fold st in Hok.
  assert (Hok1 : window_ok (snd st1)) by (apply step_ok, Hok).
  assert (Hok2 : window_ok (snd st2)) by (apply step_ok, Hok1).
  assert (E1 : snd st1 = fst (VTracerGUI.convert_image (snd st))).
  { subst st1. simpl. rewrite Hen. reflexivity. }
  destruct (convert_image_runs _ Hok)
    as [[Hnone _]|(q & s & Hq & _ & _ & _ & E)].
  { destruct Hok as (_ & _ & H3 & _). destruct (H3 Hen) as [x Hx].
    congruence. }
  rewrite E in E1. cbn [fst] in E1.
  assert (E2 : snd st2 = VTracerGUI.load_image p (snd st1)).
  { subst st2. simpl. rewrite Hdrop. reflexivity. }
  assert (Hen2 : VTracerGUI.convert_button_enabled (snd st2) = true)
    by (rewrite E2; reflexivity).
  split; [rewrite E1; cbn; eauto|].
  split; [rewrite E1; reflexivity|].
  split; [exact Hen2|].
  split; [rewrite E2, E1; reflexivity|].
  destruct (convert_image_runs _ Hok2)
    as [[Hnone _]|(q' & s' & Hq' & _ & _ & _ & E')].
  { rewrite E2 in Hnone. discriminate. }
  assert (E3 : snd st3 = fst (VTracerGUI.convert_image (snd st2))).
  { subst st3. unfold Session.step. rewrite Hen2. reflexivity. }
  exists s'. rewrite E3, E'. cbn.
  rewrite E2 in Hq'. cbn in Hq'. injection Hq' as <-. reflexivity.
Qed.

Lemma load_during_conversion_allows_second_worker_witness :
  let st := Session.play cat_world example_events_loaded in
  let st1 := Session.step st Session.click_convert in
  let st2 := Session.step st1 (Session.drop ["/tmp/dog.gif"]) in
  let st3 := Session.step st2 Session.click_convert in
  VTracerGUI.convert_button_enabled (snd st) = true /\
  ImageDropWidget.dropEvent ["/tmp/dog.gif"] = Some "/tmp/dog.gif" /\
  is_Some (VTracerGUI.conversion_worker (snd st1)) /\
  VTracerGUI.convert_button_enabled (snd st1) = false /\
  VTracerGUI.convert_button_enabled (snd st2) = true /\
  VTracerGUI.progress_bar_visible (snd st2) = true /\
  exists s,
    VTracerGUI.conversion_worker (snd st3)
    = Some {| ConversionWorker.image_path := "/tmp/dog.gif";
              ConversionWorker.params := s |}.
Proof.
  intros st st1 st2 st3.
  assert (H1 : VTracerGUI.convert_button_enabled (snd st) = true)
    by (vm_compute; reflexivity).
  assert (H2 : ImageDropWidget.dropEvent ["/tmp/dog.gif"]
               = Some "/tmp/dog.gif") by (vm_compute; reflexivity).
  split; [exact H1|]. split; [exact H2|].
  exact (load_during_conversion_allows_second_worker cat_world
           example_events_loaded ["/tmp/dog.gif"] "/tmp/dog.gif" H1 H2).
Defined.

(* --------------------------------------------------------------------- *)
(* The segment length as a float                                         *)
(* --------------------------------------------------------------------- *)

Lemma tenths_distinct (v1 v2 : Z) :
  35 <= v1 <= 100 -> 35 <= v2 <= 100 ->
  PrimFloat.eqb (PrimFloat.div (float_of_int v1) 10%float)
                (PrimFloat.div (float_of_int v2) 10%float) = true ->
  v1 = v2.
Proof.
  intros H1 H2.
  assert (Hall : forallb (fun i => forallb (fun j =>
             implb (PrimFloat.eqb
                      (PrimFloat.div (float_of_int (35 + Z.of_nat i)) 10%float)
                      (PrimFloat.div (float_of_int (35 + Z.of_nat j)) 10%float))
                   (Nat.eqb i j)) (seq 0 66)) (seq 0 66) = true)
    by (vm_compute; reflexivity).
  rewrite forallb_forall in Hall.
  specialize (Hall (Z.to_nat (v1 - 35))).
  rewrite forallb_forall in Hall.
  assert (Hi : In (Z.to_nat (v1 - 35)) (seq 0 66)) by (apply in_seq; lia).
  assert (Hj : In (Z.to_nat (v2 - 35)) (seq 0 66)) by (apply in_seq; lia).
  specialize (Hall Hi _ Hj).
  replace (35 + Z.of_nat (Z.to_nat (v1 - 35))) with v1 in Hall by lia.
  replace (35 + Z.of_nat (Z.to_nat (v2 - 35))) with v2 in Hall by lia.
  intros Heq. rewrite Heq in Hall. simpl in Hall.
  apply Nat.eqb_eq in Hall. lia.
Qed.

(** X25: the segment length handed to the library is always the float
    v / 10.0 of a slider position v in 35..100, so it moves in steps of a
    tenth; and the 66 positions give 66 different floats (no two
    positions are merged by the division). *)
Theorem length_threshold_positions
    (session : list ParameterControlWidget.action) :
  (exists (s : Params.t) (v : Z),
     ParameterControlWidget.get_parameters
       (ParameterControlWidget.after session) = Return s /\
     35 <= v <= 100 /\
     Params.length_threshold s = PrimFloat.div (float_of_int v) 10%float) /\
  (forall v1 v2 : Z,
     35 <= v1 <= 100 -> 35 <= v2 <= 100 ->
     PrimFloat.eqb (PrimFloat.div (float_of_int v1) 10%float)
                   (PrimFloat.div (float_of_int v2) 10%float) = true ->
     v1 = v2).
Proof.
  split; [exact (length_threshold_is_a_tenth session) | exact tenths_distinct].
Qed.
